(** * The "sum" tutorial programs over the LLVM-C interface

    The repository holds three C programs, [LLVM-C/Chapter1/sum.c],
    [LLVM-C/Chapter2/sum.c] and [LLVM-C/sum.c].  Each [main] is a sequence of
    calls into the LLVM-C library.  The programs are embedded as computations
    in a small state-and-halt monad; the library is the environment:

    - the IR-building calls act on a store of modules, functions, basic
      blocks and instructions, so that what a program has built can be
      inspected and evaluated;
    - the calls that may fail (verification, bitcode writing, target lookup,
      code emission) take their result code from an [oracle], over which the
      theorems quantify;
    - a local variable that the C text declares without an initializer holds
      an indeterminate value; the program's own dereference of such a pointer
      halts the run as undefined behaviour;
    - the trace of a run records the library calls with their arguments and
      what the program itself prints; what the library writes on its own to
      the standard error of the process is not recorded. *)

From Stdlib Require Import ZArith List String Bool Lia DecimalString.
Import ListNotations.
Local Open Scope string_scope.
Local Open Scope list_scope.
Local Open Scope Z_scope.

(** ** Data of the library interface *)

#[local] Set Warnings "-register-all".

(** [LLVMBool] is [int] in llvm-c/Types.h. *)
Definition LLVMBool := Z.

(** Types are uniqued by the library, so a type reference is the type. *)
Inductive LLVMTypeRef :=
| Int32Type
| FunctionType (ReturnType : LLVMTypeRef) (ParamTypes : list LLVMTypeRef)
               (IsVarArg : bool).

Definition LLVMModuleRef := nat.
Definition LLVMBuilderRef := nat.
Definition LLVMTargetMachineRef := nat.

(** A basic block is the [b]-th block of the [f]-th function of module [m]. *)
Record LLVMBasicBlockRef := BlockRef { bb_mod : nat; bb_fn : nat; bb_idx : nat }.

Inductive LLVMValueRef :=
| VFunction (m f : nat)
| VParam (m f i : nat)
| VInstr (m f b i : nat).

Inductive instr :=
| Add (Name : string) (LHS RHS : LLVMValueRef)
| Ret (V : LLVMValueRef).

Record basic_block := { block_name : string; block_instrs : list instr }.
Record function := { fn_name : string; fn_type : LLVMTypeRef;
                     fn_blocks : list basic_block }.
Record module := { mod_name : string; mod_functions : list function }.

Inductive builder_state := Unpositioned | AtEnd (Block : LLVMBasicBlockRef) | Disposed.

(** llvm-c/Analysis.h *)
Inductive LLVMVerifierFailureAction :=
| LLVMAbortProcessAction    (* verifier will print to stderr and abort() *)
| LLVMPrintMessageAction    (* verifier will print to stderr and return 1 *)
| LLVMReturnStatusAction.   (* verifier will just return 1 *)

(** llvm-c/TargetMachine.h *)
Inductive LLVMCodeGenFileType := LLVMAssemblyFile | LLVMObjectFile.
Inductive LLVMCodeGenOptLevel :=
  LLVMCodeGenLevelNone | LLVMCodeGenLevelLess | LLVMCodeGenLevelDefault
| LLVMCodeGenLevelAggressive.
Inductive LLVMRelocMode :=
  LLVMRelocDefault | LLVMRelocStatic | LLVMRelocPIC | LLVMRelocDynamicNoPic.
Inductive LLVMCodeModel :=
  LLVMCodeModelDefault | LLVMCodeModelJITDefault | LLVMCodeModelSmall
| LLVMCodeModelKernel | LLVMCodeModelMedium | LLVMCodeModelLarge.

(** ** C values that live in, or point to, local variables *)

(** Contents of a local of pointer or handle type ([char *error],
    [LLVMTargetRef targetRef], [LLVMMemoryBufferRef mem]). *)
Inductive cval :=
| Uninit                 (* declared without initializer, not yet written *)
| Null
| Str (s : string)       (* a message allocated by the library *)
| Handle (h : nat).      (* an opaque library object *)

(** A pointer to such a local ([char **], [LLVMTargetRef *], ...). *)
Inductive cptr :=
| Pundef                 (* declared without initializer *)
| Pnull
| Paddr (x : string).    (* [&x] for the local named [x] *)

(** ** Events *)

Inductive libcall :=
| CModuleCreateWithName (ModuleID : string)
| CInt32Type
| CFunctionType (ReturnType : LLVMTypeRef) (ParamTypes : list LLVMTypeRef)
                (ParamCount : Z) (IsVarArg : LLVMBool)
| CAddFunction (M : LLVMModuleRef) (Name : string) (FunctionTy : LLVMTypeRef)
| CAppendBasicBlock (Fn : LLVMValueRef) (Name : string)
| CCreateBuilder
| CPositionBuilderAtEnd (Builder : LLVMBuilderRef) (Block : LLVMBasicBlockRef)
| CGetParam (Fn : LLVMValueRef) (Index : Z)
| CBuildAdd (B : LLVMBuilderRef) (LHS RHS : LLVMValueRef) (Name : string)
| CBuildRet (B : LLVMBuilderRef) (V : LLVMValueRef)
| CVerifyModule (M : LLVMModuleRef) (Action : LLVMVerifierFailureAction)
                (OutMessage : cptr)
| CDisposeMessage (Message : cval)
| CWriteBitcodeToFile (M : LLVMModuleRef) (Path : string)
| CWriteBitcodeToMemoryBuffer (M : LLVMModuleRef)
| CInitializeAllTargets
| CInitializeAllTargetMCs
| CInitializeAllTargetInfos
| CInitializeAllAsmPrinters
| CGetTargetFromTriple (Triple : string) (T : cptr) (ErrorMessage : cptr)
| CCreateTargetMachine (T : cval) (Triple CPU Features : string)
                       (Level : LLVMCodeGenOptLevel) (Reloc : LLVMRelocMode)
                       (CodeModel : LLVMCodeModel)
| CTargetMachineEmitToFile (T : LLVMTargetMachineRef) (M : LLVMModuleRef)
                           (Filename : string) (codegen : LLVMCodeGenFileType)
                           (ErrorMessage : cptr)
| CTargetMachineEmitToMemoryBuffer (T : LLVMTargetMachineRef) (M : LLVMModuleRef)
                                   (codegen : LLVMCodeGenFileType)
                                   (ErrorMessage : cptr) (OutMemBuf : cptr)
| CDisposeBuilder (Builder : LLVMBuilderRef).

Inductive event :=
| Call (c : libcall)
| Stdout (s : string)     (* printf *)
| Stderr (s : string).    (* fprintf(stderr, ...) *)

(** What the library answers where the programs cannot know: the result code
    of a call and, on failure, the message it hands back. *)
Record oracle := { result : libcall -> Z; message : libcall -> string }.

(** ** Program state *)

Inductive artifact_kind := Bitcode | Object | Assembly.
Inductive sink := ToFile (path : string) | ToBuffer (h : nat).
Record artifact := { art_sink : sink; art_kind : artifact_kind;
                     art_module : option module }.

Record state := mkState {
  st_modules : list module;
  st_builders : list builder_state;
  st_cells : list (string * cval);   (* locals whose address is taken *)
  st_handles : nat;                  (* opaque handles handed out so far *)
  st_outputs : list artifact;        (* files and buffers written *)
  st_trace : list event              (* oldest first *)
}.

Definition initial : state := mkState [] [] [] 0 [] [].

Definition set_modules (ms : list module) (s : state) : state :=
  mkState ms (st_builders s) (st_cells s) (st_handles s) (st_outputs s) (st_trace s).
Definition set_builders (bs : list builder_state) (s : state) : state :=
  mkState (st_modules s) bs (st_cells s) (st_handles s) (st_outputs s) (st_trace s).
Definition set_cells (cs : list (string * cval)) (s : state) : state :=
  mkState (st_modules s) (st_builders s) cs (st_handles s) (st_outputs s) (st_trace s).
Definition set_handles (n : nat) (s : state) : state :=
  mkState (st_modules s) (st_builders s) (st_cells s) n (st_outputs s) (st_trace s).
Definition set_outputs (os : list artifact) (s : state) : state :=
  mkState (st_modules s) (st_builders s) (st_cells s) (st_handles s) os (st_trace s).
Definition set_trace (tr : list event) (s : state) : state :=
  mkState (st_modules s) (st_builders s) (st_cells s) (st_handles s) (st_outputs s) tr.

Fixpoint lookup_cell (x : string) (cs : list (string * cval)) : cval :=
  match cs with
  | [] => Uninit
  | (y, v) :: cs' => if String.eqb x y then v else lookup_cell x cs'
  end.

Fixpoint update_nth {A : Type} (n : nat) (f : A -> A) (l : list A) : list A :=
  match l, n with
  | [], _ => []
  | a :: l', O => f a :: l'
  | a :: l', S n' => a :: update_nth n' f l'
  end.

(** ** The monad: state, the oracle, and two ways to stop early *)

Inductive halt :=
| Abort                    (* the library called abort() *)
| Undefined (x : string).  (* undefined behaviour; [x] names the culprit *)

Inductive res (A : Type) :=
| Ok (a : A)
| Halt (h : halt).
Arguments Ok {A} a.
Arguments Halt {A} h.

Definition prog (A : Type) : Type := oracle -> state -> res A * state.

Definition ret {A : Type} (a : A) : prog A := fun _ s => (Ok a, s).

Definition bind {A B : Type} (c : prog A) (k : A -> prog B) : prog B :=
  fun o s => match c o s with
             | (Ok a, s') => k a o s'
             | (Halt h, s') => (Halt h, s')
             end.

Declare Scope prog_scope.
Delimit Scope prog_scope with prog.
Notation "x <- c ;; k" := (bind c (fun x => k))
  (at level 100, c at next level, right associativity) : prog_scope.
Notation "c ;; k" := (bind c (fun _ => k))
  (at level 100, right associativity) : prog_scope.
Local Open Scope prog_scope.

Definition stop {A : Type} (h : halt) : prog A := fun _ s => (Halt h, s).
Definition get : prog state := fun _ s => (Ok s, s).
Definition put (s : state) : prog unit := fun _ _ => (Ok tt, s).
Definition modify (f : state -> state) : prog unit := fun _ s => (Ok tt, f s).
Definition emit (e : event) : prog unit :=
  modify (fun s => set_trace (st_trace s ++ [e]) s).
Definition call (c : libcall) : prog unit := emit (Call c).
Definition result_of (c : libcall) : prog Z := fun o s => (Ok (result o c), s).
Definition message_of (c : libcall) : prog string := fun o s => (Ok (message o c), s).

Definition fresh_handle : prog nat :=
  s <- get ;;
  put (set_handles (S (st_handles s)) s) ;;
  ret (st_handles s).

(** ** Locals and pointers *)

(** [x = v] for a local whose address is taken somewhere in [main]. *)
Definition assign (x : string) (v : cval) : prog unit :=
  modify (fun s => set_cells ((x, v) :: st_cells s) s).

(** Reading such a local yields its contents, [Uninit] if never written. *)
Definition read_local (x : string) : prog cval :=
  s <- get ;; ret (lookup_cell x (st_cells s)).

(** [*p] in the program, where [p] is the pointer variable named [x]. *)
Definition load (x : string) (p : cptr) : prog cval :=
  match p with
  | Paddr y => read_local y
  | Pnull | Pundef => stop (Undefined x)
  end.

(** [*p = v] inside the library.  Through a pointer that is the address of
    a local the library stores.  A store through a null or indeterminate
    pointer is undefined behaviour in the library; it is not modelled here:
    the call returns, and the run is stopped at the next dereference that
    [main] itself makes of such a pointer.  A run of the embedding that has
    handed such a pointer to a call that stores through it therefore tells
    that the program is undefined from that call on, not what it does
    afterwards. *)
Definition store (p : cptr) (v : cval) : prog unit :=
  match p with
  | Paddr y => assign y v
  | Pnull | Pundef => ret tt
  end.

(** ** stdio *)

Definition decimal (z : Z) : string := NilZero.string_of_int (Z.to_int z).

Definition newline : string := String (Ascii.ascii_of_nat 10) EmptyString.

(** [printf("%s\n", v)]: the argument must be a string; [x] names the
    expression it was read from. *)
Definition printf_s (x : string) (v : cval) : prog unit :=
  match v with
  | Str s => emit (Stdout (s ++ newline)%string)
  | _ => stop (Undefined x)
  end.

(** [printf("%d\n", z)] *)
Definition printf_d (z : Z) : prog unit := emit (Stdout (decimal z ++ newline)%string).

(** [fprintf(stderr, msg)] *)
Definition fprintf_stderr (msg : string) : prog unit := emit (Stderr msg).

(** ** The library: building IR (llvm-c/Core.h) *)

(** Modelled from the spec: the compiler-infrastructure library that the
    programs call is an external dependency and no part of the repository;
    the functions of its C interface that the programs use are given here by
    their documented contract, each recording its call in the trace.  A call
    on a reference that denotes no object is undefined. *)
Definition LLVMModuleCreateWithName (ModuleID : string) : prog LLVMModuleRef :=
  call (CModuleCreateWithName ModuleID) ;;
  s <- get ;;
  put (set_modules (st_modules s ++ [{| mod_name := ModuleID; mod_functions := [] |}]) s) ;;
  ret (List.length (st_modules s)).

Definition LLVMInt32Type : prog LLVMTypeRef :=
  call CInt32Type ;; ret Int32Type.

(** [ParamTypes] is the array, [ParamCount] the number of its elements the
    library reads; reading past the array is undefined. *)
Definition LLVMFunctionType (ReturnType : LLVMTypeRef) (ParamTypes : list LLVMTypeRef)
    (ParamCount : Z) (IsVarArg : LLVMBool) : prog LLVMTypeRef :=
  call (CFunctionType ReturnType ParamTypes ParamCount IsVarArg) ;;
  if (0 <=? ParamCount) && (ParamCount <=? Z.of_nat (List.length ParamTypes))
  then ret (FunctionType ReturnType (firstn (Z.to_nat ParamCount) ParamTypes)
                         (negb (IsVarArg =? 0)))
  else stop (Undefined "LLVMFunctionType").

Definition add_function (f : function) (m : module) : module :=
  {| mod_name := mod_name m; mod_functions := mod_functions m ++ [f] |}.

Definition LLVMAddFunction (M : LLVMModuleRef) (Name : string)
    (FunctionTy : LLVMTypeRef) : prog LLVMValueRef :=
  call (CAddFunction M Name FunctionTy) ;;
  s <- get ;;
  match nth_error (st_modules s) M with
  | Some m =>
      put (set_modules
             (update_nth M (add_function
                {| fn_name := Name; fn_type := FunctionTy; fn_blocks := [] |})
                (st_modules s)) s) ;;
      ret (VFunction M (List.length (mod_functions m)))
  | None => stop (Undefined "LLVMAddFunction")
  end.

Definition lookup_function (s : state) (m f : nat) : option function :=
  match nth_error (st_modules s) m with
  | Some md => nth_error (mod_functions md) f
  | None => None
  end.

Definition lookup_block (s : state) (b : LLVMBasicBlockRef) : option basic_block :=
  match lookup_function s (bb_mod b) (bb_fn b) with
  | Some fn => nth_error (fn_blocks fn) (bb_idx b)
  | None => None
  end.

Definition update_function (m f : nat) (g : function -> function) (s : state) : state :=
  set_modules
    (update_nth m (fun md => {| mod_name := mod_name md;
                                mod_functions := update_nth f g (mod_functions md) |})
                (st_modules s)) s.

Definition add_block (bb : basic_block) (fn : function) : function :=
  {| fn_name := fn_name fn; fn_type := fn_type fn; fn_blocks := fn_blocks fn ++ [bb] |}.

Definition add_instr (b : nat) (i : instr) (fn : function) : function :=
  {| fn_name := fn_name fn; fn_type := fn_type fn;
     fn_blocks := update_nth b (fun bb => {| block_name := block_name bb;
                                             block_instrs := block_instrs bb ++ [i] |})
                             (fn_blocks fn) |}.

Definition LLVMAppendBasicBlock (Fn : LLVMValueRef) (Name : string)
    : prog LLVMBasicBlockRef :=
  call (CAppendBasicBlock Fn Name) ;;
  s <- get ;;
  match Fn with
  | VFunction m f =>
      match lookup_function s m f with
      | Some fn =>
          put (update_function m f
                 (add_block {| block_name := Name; block_instrs := [] |}) s) ;;
          ret (BlockRef m f (List.length (fn_blocks fn)))
      | None => stop (Undefined "LLVMAppendBasicBlock")
      end
  | _ => stop (Undefined "LLVMAppendBasicBlock")
  end.

Definition LLVMCreateBuilder : prog LLVMBuilderRef :=
  call CCreateBuilder ;;
  s <- get ;;
  put (set_builders (st_builders s ++ [Unpositioned]) s) ;;
  ret (List.length (st_builders s)).

Definition LLVMPositionBuilderAtEnd (Builder : LLVMBuilderRef)
    (Block : LLVMBasicBlockRef) : prog unit :=
  call (CPositionBuilderAtEnd Builder Block) ;;
  s <- get ;;
  match nth_error (st_builders s) Builder, lookup_block s Block with
  | Some (Unpositioned | AtEnd _), Some _ =>
      put (set_builders (update_nth Builder (fun _ => AtEnd Block) (st_builders s)) s)
  | _, _ => stop (Undefined "LLVMPositionBuilderAtEnd")
  end.

Definition param_count (t : LLVMTypeRef) : nat :=
  match t with
  | FunctionType _ ps _ => List.length ps
  | Int32Type => 0
  end.

Definition LLVMGetParam (Fn : LLVMValueRef) (Index : Z) : prog LLVMValueRef :=
  call (CGetParam Fn Index) ;;
  s <- get ;;
  match Fn with
  | VFunction m f =>
      match lookup_function s m f with
      | Some fn =>
          if (0 <=? Index) && (Index <? Z.of_nat (param_count (fn_type fn)))
          then ret (VParam m f (Z.to_nat Index))
          else stop (Undefined "LLVMGetParam")
      | None => stop (Undefined "LLVMGetParam")
      end
  | _ => stop (Undefined "LLVMGetParam")
  end.

(** Appends instruction [i] where builder [B] stands and returns the
    reference of the new instruction. *)
Definition build (who : string) (B : LLVMBuilderRef) (i : instr) : prog LLVMValueRef :=
  s <- get ;;
  match nth_error (st_builders s) B with
  | Some (AtEnd Block) =>
      match lookup_block s Block with
      | Some bb =>
          put (update_function (bb_mod Block) (bb_fn Block)
                               (add_instr (bb_idx Block) i) s) ;;
          ret (VInstr (bb_mod Block) (bb_fn Block) (bb_idx Block)
                      (List.length (block_instrs bb)))
      | None => stop (Undefined who)
      end
  | _ => stop (Undefined who)
  end.

Definition LLVMBuildAdd (B : LLVMBuilderRef) (LHS RHS : LLVMValueRef)
    (Name : string) : prog LLVMValueRef :=
  call (CBuildAdd B LHS RHS Name) ;;
  build "LLVMBuildAdd" B (Add Name LHS RHS).

Definition LLVMBuildRet (B : LLVMBuilderRef) (V : LLVMValueRef) : prog LLVMValueRef :=
  call (CBuildRet B V) ;;
  build "LLVMBuildRet" B (Ret V).

Definition LLVMDisposeBuilder (Builder : LLVMBuilderRef) : prog unit :=
  call (CDisposeBuilder Builder) ;;
  s <- get ;;
  match nth_error (st_builders s) Builder with
  | Some (Unpositioned | AtEnd _) =>
      put (set_builders (update_nth Builder (fun _ => Disposed) (st_builders s)) s)
  | _ => stop (Undefined "LLVMDisposeBuilder")
  end.

Definition LLVMDisposeMessage (Message : cval) : prog unit :=
  call (CDisposeMessage Message).

(** ** The library: analysis, bitcode writing, targets *)

(** Modelled from the spec: these calls of the external library answer with
    the result code the oracle gives; on result 0 an emission writes the
    module as it then stands to its file or buffer. *)
Definition snapshot (M : LLVMModuleRef) : prog (option module) :=
  s <- get ;; ret (nth_error (st_modules s) M).

Definition write_artifact (k : sink) (kind : artifact_kind) (M : LLVMModuleRef)
    : prog unit :=
  md <- snapshot M ;;
  modify (fun s => set_outputs
            (st_outputs s ++ [{| art_sink := k; art_kind := kind; art_module := md |}]) s).

(** llvm-c/Analysis.h.  A broken module under [LLVMAbortProcessAction] ends
    the process inside the library; otherwise the messages are handed back
    through [OutMessages] and the verdict is returned. *)
Definition LLVMVerifyModule (M : LLVMModuleRef) (Action : LLVMVerifierFailureAction)
    (OutMessages : cptr) : prog LLVMBool :=
  let c := CVerifyModule M Action OutMessages in
  call c ;;
  r <- result_of c ;;
  match Action with
  | LLVMAbortProcessAction => if r =? 0 then ret tt else stop Abort
  | LLVMPrintMessageAction | LLVMReturnStatusAction => ret tt
  end ;;
  msg <- message_of c ;;
  store OutMessages (Str msg) ;;
  ret r.

(** llvm-c/BitWriter.h: returns 0 on success. *)
Definition LLVMWriteBitcodeToFile (M : LLVMModuleRef) (Path : string) : prog Z :=
  let c := CWriteBitcodeToFile M Path in
  call c ;;
  r <- result_of c ;;
  (if r =? 0 then write_artifact (ToFile Path) Bitcode M else ret tt) ;;
  ret r.

Definition LLVMWriteBitcodeToMemoryBuffer (M : LLVMModuleRef) : prog cval :=
  call (CWriteBitcodeToMemoryBuffer M) ;;
  h <- fresh_handle ;;
  write_artifact (ToBuffer h) Bitcode M ;;
  ret (Handle h).

(** llvm-c/Target.h *)
Definition LLVMInitializeAllTargets : prog unit := call CInitializeAllTargets.
Definition LLVMInitializeAllTargetMCs : prog unit := call CInitializeAllTargetMCs.
Definition LLVMInitializeAllTargetInfos : prog unit := call CInitializeAllTargetInfos.
Definition LLVMInitializeAllAsmPrinters : prog unit := call CInitializeAllAsmPrinters.

(** llvm-c/TargetMachine.h: stores the target found in [T] and returns 0; on
    failure returns nonzero and hands the error back in [ErrorMessage]. *)
Definition LLVMGetTargetFromTriple (Triple : string) (T : cptr) (ErrorMessage : cptr)
    : prog LLVMBool :=
  let c := CGetTargetFromTriple Triple T ErrorMessage in
  call c ;;
  r <- result_of c ;;
  (if r =? 0
   then h <- fresh_handle ;; store T (Handle h)
   else msg <- message_of c ;; store T Null ;; store ErrorMessage (Str msg)) ;;
  ret r.

Definition LLVMCreateTargetMachine (T : cval) (Triple CPU Features : string)
    (Level : LLVMCodeGenOptLevel) (Reloc : LLVMRelocMode) (CodeModel : LLVMCodeModel)
    : prog LLVMTargetMachineRef :=
  call (CCreateTargetMachine T Triple CPU Features Level Reloc CodeModel) ;;
  fresh_handle.

Definition kind_of (codegen : LLVMCodeGenFileType) : artifact_kind :=
  match codegen with
  | LLVMAssemblyFile => Assembly
  | LLVMObjectFile => Object
  end.

(** Returns any error in [ErrorMessage]; nonzero result on failure. *)
Definition LLVMTargetMachineEmitToFile (T : LLVMTargetMachineRef) (M : LLVMModuleRef)
    (Filename : string) (codegen : LLVMCodeGenFileType) (ErrorMessage : cptr)
    : prog LLVMBool :=
  let c := CTargetMachineEmitToFile T M Filename codegen ErrorMessage in
  call c ;;
  r <- result_of c ;;
  (if r =? 0
   then write_artifact (ToFile Filename) (kind_of codegen) M
   else msg <- message_of c ;; store ErrorMessage (Str msg)) ;;
  ret r.

Definition LLVMTargetMachineEmitToMemoryBuffer (T : LLVMTargetMachineRef)
    (M : LLVMModuleRef) (codegen : LLVMCodeGenFileType) (ErrorMessage : cptr)
    (OutMemBuf : cptr) : prog LLVMBool :=
  let c := CTargetMachineEmitToMemoryBuffer T M codegen ErrorMessage OutMemBuf in
  call c ;;
  r <- result_of c ;;
  (if r =? 0
   then h <- fresh_handle ;;
        write_artifact (ToBuffer h) (kind_of codegen) M ;;
        store OutMemBuf (Handle h)
   else msg <- message_of c ;; store ErrorMessage (Str msg)) ;;
  ret r.

(** ** Evaluating what was built *)

(** Two's-complement value of the low 32 bits: the result of [add] on i32. *)
Definition sint32 (x : Z) : Z := (x + 2 ^ 31) mod 2 ^ 32 - 2 ^ 31.

(** Value of an operand of function [f] of module [m], given the arguments
    and the values of the instructions of block [b] executed so far. *)
Definition eval_operand (m f b : nat) (args done : list Z) (v : LLVMValueRef)
    : option Z :=
  match v with
  | VParam m' f' i =>
      if (m' =? m)%nat && (f' =? f)%nat then nth_error args i else None
  | VInstr m' f' b' i =>
      if (m' =? m)%nat && (f' =? f)%nat && (b' =? b)%nat then nth_error done i else None
  | VFunction _ _ => None
  end.

(** Runs the instructions of one block up to its [ret]. *)
Fixpoint eval_instrs (m f b : nat) (args done : list Z) (code : list instr) : option Z :=
  match code with
  | [] => None
  | Add _ LHS RHS :: rest =>
      match eval_operand m f b args done LHS, eval_operand m f b args done RHS with
      | Some x, Some y => eval_instrs m f b args (done ++ [sint32 (x + y)]) rest
      | _, _ => None
      end
  | Ret V :: _ => eval_operand m f b args done V
  end.

(** Calls function [f] of module [m]: as many arguments as parameters, then
    the entry block is run. *)
Definition eval_function (m f : nat) (fn : function) (args : list Z) : option Z :=
  match fn_blocks fn with
  | entry :: _ =>
      if (List.length args =? param_count (fn_type fn))%nat
      then eval_instrs m f 0 args [] (block_instrs entry)
      else None
  | [] => None
  end.

(** ** The three programs *)

(** The message of the bitcode check, ["...skipping\n"] in the C text. *)
Definition bitcode_error : string :=
  ("error writing bitcode to file, skipping" ++ newline)%string.

(** In each [main] the arguments of a call are evaluated left to right, and
    falling off the closing brace returns 0.  A declaration without
    initializer of a pointer whose address is never taken is a [let] to
    [Pundef]: handing it to the library shows in the call and does not stop
    the run, dereferencing it in [main] does.  Locals whose address is taken
    live in the cells of the state. *)

(** LLVM-C/Chapter1/sum.c *)
Module Chapter1.

Definition main (argc : Z) (argv : list string) : prog Z :=
  (* Module creation *)
  mod_ <- LLVMModuleCreateWithName "my_module" ;;
  (* Function prototype creation *)
  t0 <- LLVMInt32Type ;;
  t1 <- LLVMInt32Type ;;
  let param_types := [t0; t1] in
  i32 <- LLVMInt32Type ;;
  ret_type <- LLVMFunctionType i32 param_types 2 0 ;;
  sum <- LLVMAddFunction mod_ "sum" ret_type ;;
  entry <- LLVMAppendBasicBlock sum "entry" ;;
  (* Builder creation *)
  builder <- LLVMCreateBuilder ;;
  LLVMPositionBuilderAtEnd builder entry ;;
  (* Instruction added to the builder *)
  a <- LLVMGetParam sum 0 ;;
  b <- LLVMGetParam sum 1 ;;
  tmp <- LLVMBuildAdd builder a b "tmp" ;;
  LLVMBuildRet builder tmp ;;
  (* Analysis *)
  assign "error" Null ;;
  LLVMVerifyModule mod_ LLVMAbortProcessAction (Paddr "error") ;;
  error <- read_local "error" ;;
  LLVMDisposeMessage error ;;
  (* Bitcode writing to file *)
  r <- LLVMWriteBitcodeToFile mod_ "sum.bc" ;;
  (if negb (r =? 0) then fprintf_stderr bitcode_error else ret tt) ;;
  (* Dispose the builder *)
  LLVMDisposeBuilder builder ;;
  ret 0.

End Chapter1.

(** LLVM-C/Chapter2/sum.c *)
Module Chapter2.

Definition main (argc : Z) (argv : list string) : prog Z :=
  (* Module creation *)
  mod_ <- LLVMModuleCreateWithName "my_module" ;;
  (* Function prototype creation *)
  t0 <- LLVMInt32Type ;;
  t1 <- LLVMInt32Type ;;
  let param_types := [t0; t1] in
  i32 <- LLVMInt32Type ;;
  ret_type <- LLVMFunctionType i32 param_types 2 0 ;;
  sum <- LLVMAddFunction mod_ "sum" ret_type ;;
  entry <- LLVMAppendBasicBlock sum "entry" ;;
  (* Builder creation *)
  builder <- LLVMCreateBuilder ;;
  LLVMPositionBuilderAtEnd builder entry ;;
  (* Instruction added to the builder *)
  a <- LLVMGetParam sum 0 ;;
  b <- LLVMGetParam sum 1 ;;
  tmp <- LLVMBuildAdd builder a b "tmp" ;;
  LLVMBuildRet builder tmp ;;
  (* Choosing the triple *)
  let triple := "x86_64" in
  let cpu := EmptyString in
  printf_s "triple" (Str triple) ;;
  (* Initialization of the targets *)
  LLVMInitializeAllTargets ;;
  LLVMInitializeAllTargetMCs ;;
  LLVMInitializeAllTargetInfos ;;
  LLVMInitializeAllAsmPrinters ;;
  (* LLVMTargetRef targetRef;  -- a cell, written through &targetRef *)
  (* Generating the target machine *)
  let errPtrTriple := Pundef in
  resTriple <- LLVMGetTargetFromTriple triple (Paddr "targetRef") errPtrTriple ;;
  (if negb (resTriple =? 0)
   then msg <- load "errPtrTriple" errPtrTriple ;; printf_s "*errPtrTriple" msg
   else ret tt) ;;
  targetRef <- read_local "targetRef" ;;
  targetMachineRef <- LLVMCreateTargetMachine targetRef triple cpu EmptyString
                        LLVMCodeGenLevelNone LLVMRelocDefault LLVMCodeModelDefault ;;
  (* Bitcode writing to file *)
  let errPtrFileObj := Pundef in
  resFileObj <- LLVMTargetMachineEmitToFile targetMachineRef mod_ "sum_llvm.o"
                  LLVMObjectFile errPtrFileObj ;;
  (if negb (resFileObj =? 0)
   then msg <- load "errPtrFileObj" errPtrFileObj ;; printf_s "*errPtrFileObj" msg
   else ret tt) ;;
  let errPtrFileAsm := Pundef in
  resFileAsm <- LLVMTargetMachineEmitToFile targetMachineRef mod_ "sum_llvm.asm"
                  LLVMAssemblyFile errPtrFileAsm ;;
  (if negb (resFileAsm =? 0)
   then msg <- load "errPtrFileAsm" errPtrFileAsm ;; printf_s "*errPtrFileAsm" msg
   else ret tt) ;;
  (* Analysis *)
  assign "error" Null ;;
  LLVMVerifyModule mod_ LLVMAbortProcessAction (Paddr "error") ;;
  error <- read_local "error" ;;
  LLVMDisposeMessage error ;;
  LLVMDisposeBuilder builder ;;
  ret 0.

End Chapter2.

(** LLVM-C/sum.c *)
Module LLVMC.

(** Lines 74 to 87 of [main]: what follows the read of [*targetRef], given
    the value [target] that read produced. *)
Definition main_from_target (mod_ : LLVMModuleRef) (builder : LLVMBuilderRef)
    (triple cpu : string) (target : cval) : prog Z :=
  targetMachineRef <- LLVMCreateTargetMachine target triple cpu EmptyString
                        LLVMCodeGenLevelNone LLVMRelocDefault LLVMCodeModelDefault ;;
  (* Bitcode writing to file *)
  let errPtrFile := Pundef in
  LLVMTargetMachineEmitToFile targetMachineRef mod_ "spec_sum.bc" LLVMObjectFile
                              errPtrFile ;;
  (* Bitcode writing to memory buffer *)
  let errPtrMem := Pundef in
  LLVMTargetMachineEmitToMemoryBuffer targetMachineRef mod_ LLVMObjectFile
                                      errPtrMem (Paddr "mem") ;;
  LLVMDisposeBuilder builder ;;
  ret 0.

Definition main (argc : Z) (argv : list string) : prog Z :=
  (* Module creation *)
  mod_ <- LLVMModuleCreateWithName "my_module" ;;
  (* Function prototype creation *)
  t0 <- LLVMInt32Type ;;
  t1 <- LLVMInt32Type ;;
  let param_types := [t0; t1] in
  i32 <- LLVMInt32Type ;;
  ret_type <- LLVMFunctionType i32 param_types 2 0 ;;
  sum <- LLVMAddFunction mod_ "sum" ret_type ;;
  entry <- LLVMAppendBasicBlock sum "entry" ;;
  (* Builder creation *)
  builder <- LLVMCreateBuilder ;;
  LLVMPositionBuilderAtEnd builder entry ;;
  (* Instruction added to the builder *)
  a <- LLVMGetParam sum 0 ;;
  b <- LLVMGetParam sum 1 ;;
  tmp <- LLVMBuildAdd builder a b "tmp" ;;
  LLVMBuildRet builder tmp ;;
  (* Analysis *)
  assign "error" Null ;;
  LLVMVerifyModule mod_ LLVMAbortProcessAction (Paddr "error") ;;
  error <- read_local "error" ;;
  LLVMDisposeMessage error ;;
  (* Bitcode writing to file *)
  r <- LLVMWriteBitcodeToFile mod_ "sum.bc" ;;
  (if negb (r =? 0) then fprintf_stderr bitcode_error else ret tt) ;;
  (* Bitcode writing to memory buffer *)
  mem <- LLVMWriteBitcodeToMemoryBuffer mod_ ;;
  assign "mem" mem ;;
  (* Choosing the triple *)
  let triple := "x86_64" in
  let cpu := EmptyString in
  printf_s "triple" (Str triple) ;;
  (* Initialization of the targets *)
  let targetRef := Pundef in
  (* Generating the target machine *)
  let errPtrTriple := Pundef in
  res <- LLVMGetTargetFromTriple triple targetRef errPtrTriple ;;
  (if res =? 1
   then msg <- load "errPtrTriple" errPtrTriple ;; printf_s "*errPtrTriple" msg
   else ret tt) ;;
  printf_d res ;;
  target <- load "targetRef" targetRef ;;
  main_from_target mod_ builder triple cpu target.

End LLVMC.

(** ** Running a program *)

Inductive program := Chapter1_sum | Chapter2_sum | LLVMC_sum.

Definition main_of (p : program) : Z -> list string -> prog Z :=
  match p with
  | Chapter1_sum => Chapter1.main
  | Chapter2_sum => Chapter2.main
  | LLVMC_sum => LLVMC.main
  end.

(** A run starts in the empty state.  Its result is [Ok status] when [main]
    returns, [Halt Abort] when the library aborts the process and
    [Halt (Undefined x)] when the program runs into undefined behaviour. *)
Definition run (p : program) (argc : Z) (argv : list string) (o : oracle)
    : res Z * state :=
  main_of p argc argv o initial.

Definition outcome (r : res Z * state) : res Z := fst r.
Definition trace (r : res Z * state) : list event := st_trace (snd r).

Definition calls (tr : list event) : list libcall :=
  flat_map (fun e => match e with Call c => [c] | _ => [] end) tr.
Definition stdout (tr : list event) : list string :=
  flat_map (fun e => match e with Stdout s => [s] | _ => [] end) tr.
Definition stderr (tr : list event) : list string :=
  flat_map (fun e => match e with Stderr s => [s] | _ => [] end) tr.



(** ** Vocabulary of the properties *)

(** The library function a call event stands for. *)
Definition name_of (c : libcall) : string :=
  match c with
  | CModuleCreateWithName _ => "LLVMModuleCreateWithName"
  | CInt32Type => "LLVMInt32Type"
  | CFunctionType _ _ _ _ => "LLVMFunctionType"
  | CAddFunction _ _ _ => "LLVMAddFunction"
  | CAppendBasicBlock _ _ => "LLVMAppendBasicBlock"
  | CCreateBuilder => "LLVMCreateBuilder"
  | CPositionBuilderAtEnd _ _ => "LLVMPositionBuilderAtEnd"
  | CGetParam _ _ => "LLVMGetParam"
  | CBuildAdd _ _ _ _ => "LLVMBuildAdd"
  | CBuildRet _ _ => "LLVMBuildRet"
  | CVerifyModule _ _ _ => "LLVMVerifyModule"
  | CDisposeMessage _ => "LLVMDisposeMessage"
  | CWriteBitcodeToFile _ _ => "LLVMWriteBitcodeToFile"
  | CWriteBitcodeToMemoryBuffer _ => "LLVMWriteBitcodeToMemoryBuffer"
  | CInitializeAllTargets => "LLVMInitializeAllTargets"
  | CInitializeAllTargetMCs => "LLVMInitializeAllTargetMCs"
  | CInitializeAllTargetInfos => "LLVMInitializeAllTargetInfos"
  | CInitializeAllAsmPrinters => "LLVMInitializeAllAsmPrinters"
  | CGetTargetFromTriple _ _ _ => "LLVMGetTargetFromTriple"
  | CCreateTargetMachine _ _ _ _ _ _ _ => "LLVMCreateTargetMachine"
  | CTargetMachineEmitToFile _ _ _ _ _ => "LLVMTargetMachineEmitToFile"
  | CTargetMachineEmitToMemoryBuffer _ _ _ _ _ => "LLVMTargetMachineEmitToMemoryBuffer"
  | CDisposeBuilder _ => "LLVMDisposeBuilder"
  end.

Definition names (tr : list event) : list string := map name_of (calls tr).

Definition is_verify (c : libcall) : bool :=
  match c with CVerifyModule _ _ _ => true | _ => false end.

(** Emission steps: bitcode to a file or a memory buffer, object or assembly
    code through the target machine. *)
Definition is_emission (c : libcall) : bool :=
  match c with
  | CWriteBitcodeToFile _ _ | CWriteBitcodeToMemoryBuffer _
  | CTargetMachineEmitToFile _ _ _ _ _
  | CTargetMachineEmitToMemoryBuffer _ _ _ _ _ => true
  | _ => false
  end.

Definition is_write_bitcode_to_file (c : libcall) : bool :=
  match c with CWriteBitcodeToFile _ _ => true | _ => false end.

(** [verified_first v cs]: no emission in [cs] comes before a verification,
    where [v] tells whether one has already happened. *)
Fixpoint verified_first (v : bool) (cs : list libcall) : bool :=
  match cs with
  | [] => true
  | c :: cs' =>
      if is_emission c then v && verified_first v cs'
      else verified_first (v || is_verify c) cs'
  end.

(** File name a call writes to, and target triple a call names. *)
Definition path_of (c : libcall) : option string :=
  match c with
  | CWriteBitcodeToFile _ Path => Some Path
  | CTargetMachineEmitToFile _ _ Filename _ _ => Some Filename
  | _ => None
  end.

Definition triple_of (c : libcall) : option string :=
  match c with
  | CGetTargetFromTriple Triple _ _ => Some Triple
  | CCreateTargetMachine _ Triple _ _ _ _ _ => Some Triple
  | _ => None
  end.

(** The calls whose result the library decides, as the programs make them. *)
Definition verify_call : libcall :=
  CVerifyModule 0%nat LLVMAbortProcessAction (Paddr "error").
Definition write_call : libcall := CWriteBitcodeToFile 0%nat "sum.bc".

Module Chapter2Calls.
Definition target_call : libcall :=
  CGetTargetFromTriple "x86_64" (Paddr "targetRef") Pundef.
Definition obj_call : libcall :=
  CTargetMachineEmitToFile 1%nat 0%nat "sum_llvm.o" LLVMObjectFile Pundef.
Definition asm_call : libcall :=
  CTargetMachineEmitToFile 1%nat 0%nat "sum_llvm.asm" LLVMAssemblyFile Pundef.
End Chapter2Calls.

Module LLVMCCalls.
Definition target_call : libcall := CGetTargetFromTriple "x86_64" Pundef Pundef.
End LLVMCCalls.

(** The calls and prints of lines 20 to 34, common to the three programs. *)
Definition build_events : list event :=
  [Call (CModuleCreateWithName "my_module");
   Call CInt32Type; Call CInt32Type; Call CInt32Type;
   Call (CFunctionType Int32Type [Int32Type; Int32Type] 2 0);
   Call (CAddFunction 0%nat "sum" (FunctionType Int32Type [Int32Type; Int32Type] false));
   Call (CAppendBasicBlock (VFunction 0 0) "entry");
   Call CCreateBuilder;
   Call (CPositionBuilderAtEnd 0%nat (BlockRef 0 0 0));
   Call (CGetParam (VFunction 0 0) 0);
   Call (CGetParam (VFunction 0 0) 1);
   Call (CBuildAdd 0%nat (VParam 0 0 0) (VParam 0 0 1) "tmp");
   Call (CBuildRet 0%nat (VInstr 0 0 0 0))].

(** What every program builds. *)
Definition sum_block : basic_block :=
  {| block_name := "entry";
     block_instrs := [Add "tmp" (VParam 0 0 0) (VParam 0 0 1); Ret (VInstr 0 0 0 0)] |}.
Definition sum_function : function :=
  {| fn_name := "sum";
     fn_type := FunctionType Int32Type [Int32Type; Int32Type] false;
     fn_blocks := [sum_block] |}.
Definition sum_module : module :=
  {| mod_name := "my_module"; mod_functions := [sum_function] |}.

(** Libraries that fail. *)

(** The library that answers [code] to the calls selected by [f] and 0 to
    all others. *)
Definition failing (f : libcall -> bool) (code : Z) : oracle :=
  {| result := fun c => if f c then code else 0;
     message := fun c => if f c then "failed" else EmptyString |}.

(** The library that never fails. *)
Definition all_ok : oracle := failing (fun _ => false) 0.

Definition is_target_lookup (c : libcall) : bool :=
  match c with CGetTargetFromTriple _ _ _ => true | _ => false end.

(** The reaction to errors read literally: under library [o] the run ends as
    the run in which nothing fails, makes the same library calls, and what
    differs is a message on standard error. *)
Definition reports_and_continues (p : program) (argc : Z) (argv : list string)
    (o : oracle) : Prop :=
  outcome (run p argc argv o) = outcome (run p argc argv all_ok) /\
  names (trace (run p argc argv o)) = names (trace (run p argc argv all_ok)) /\
  stdout (trace (run p argc argv o)) = stdout (trace (run p argc argv all_ok)) /\
  stderr (trace (run p argc argv o)) <> [].

(** The library calls of each [main] in the order of the program text; the
    first thirteen are those of lines 20 to 34. *)
Definition build_sequence : list string :=
  ["LLVMModuleCreateWithName"; "LLVMInt32Type"; "LLVMInt32Type"; "LLVMInt32Type";
   "LLVMFunctionType"; "LLVMAddFunction"; "LLVMAppendBasicBlock";
   "LLVMCreateBuilder"; "LLVMPositionBuilderAtEnd"; "LLVMGetParam"; "LLVMGetParam";
   "LLVMBuildAdd"; "LLVMBuildRet"].

Definition call_sequence (p : program) : list string :=
  build_sequence ++
  match p with
  | Chapter1_sum =>
      ["LLVMVerifyModule"; "LLVMDisposeMessage"; "LLVMWriteBitcodeToFile";
       "LLVMDisposeBuilder"]
  | Chapter2_sum =>
      ["LLVMInitializeAllTargets"; "LLVMInitializeAllTargetMCs";
       "LLVMInitializeAllTargetInfos"; "LLVMInitializeAllAsmPrinters";
       "LLVMGetTargetFromTriple"; "LLVMCreateTargetMachine";
       "LLVMTargetMachineEmitToFile"; "LLVMTargetMachineEmitToFile";
       "LLVMVerifyModule"; "LLVMDisposeMessage"; "LLVMDisposeBuilder"]
  | LLVMC_sum =>
      ["LLVMVerifyModule"; "LLVMDisposeMessage"; "LLVMWriteBitcodeToFile";
       "LLVMWriteBitcodeToMemoryBuffer"; "LLVMGetTargetFromTriple";
       "LLVMCreateTargetMachine"; "LLVMTargetMachineEmitToFile";
       "LLVMTargetMachineEmitToMemoryBuffer"; "LLVMDisposeBuilder"]
  end.

(** The [printf] and [fprintf] statements of each [main]. *)
Definition print_statements (p : program) : nat :=
  match p with
  | Chapter1_sum => 1
  | Chapter2_sum => 4
  | LLVMC_sum => 4
  end.

(** A call names no file but the four of the program texts and no triple but
    "x86_64". *)
Definition fixed_names (c : libcall) : Prop :=
  match path_of c with
  | Some path => In path ["sum.bc"; "sum_llvm.o"; "sum_llvm.asm"; "spec_sum.bc"]
  | None => True
  end /\
  match triple_of c with
  | Some t => t = "x86_64"
  | None => True
  end.

(** *** Further vocabulary *)

(** A file of that name is among the artifacts written. *)
Definition written (path : string) (outs : list artifact) : bool :=
  existsb (fun a => match art_sink a with
                    | ToFile q => String.eqb path q
                    | ToBuffer _ => false
                    end) outs.

Definition to_buffer (a : artifact) : bool :=
  match art_sink a with ToBuffer _ => true | ToFile _ => false end.

(** The four target initialisations of llvm-c/Target.h. *)
Definition is_target_init (c : libcall) : bool :=
  match c with
  | CInitializeAllTargets | CInitializeAllTargetMCs
  | CInitializeAllTargetInfos | CInitializeAllAsmPrinters => true
  | _ => false
  end.

(** Calls into llvm-c/Target.h and llvm-c/TargetMachine.h. *)
Definition is_target_api (c : libcall) : bool :=
  is_target_init c ||
  match c with
  | CGetTargetFromTriple _ _ _ | CCreateTargetMachine _ _ _ _ _ _ _
  | CTargetMachineEmitToFile _ _ _ _ _
  | CTargetMachineEmitToMemoryBuffer _ _ _ _ _ => true
  | _ => false
  end.

(** [first_then a b seen cs]: every [b]-call of [cs] comes after some
    [a]-call, where [seen] tells whether an [a]-call has already happened. *)
Fixpoint first_then (a b : libcall -> bool) (seen : bool) (cs : list libcall) : bool :=
  match cs with
  | [] => true
  | c :: cs' =>
      if b c then seen && first_then a b seen cs'
      else first_then a b (seen || a c) cs'
  end.

(** The calls made before the first [b]-call, all of them if there is none. *)
Fixpoint before_first (b : libcall -> bool) (cs : list libcall) : list libcall :=
  match cs with
  | [] => []
  | c :: cs' => if b c then [] else c :: before_first b cs'
  end.

(** The argument of a call of LLVMDisposeMessage is the message [msg]. *)
Definition disposes_only (msg : cval) (c : libcall) : Prop :=
  match c with
  | CDisposeMessage m => m = msg
  | _ => True
  end.

(** A call of LLVMCreateTargetMachine is given the target [T0], which is a
    library object. *)
Definition creates_from (T0 : cval) (c : libcall) : Prop :=
  match c with
  | CCreateTargetMachine T _ _ _ _ _ _ => T = T0 /\ exists h, T = Handle h
  | _ => True
  end.

(** ** Symbolic execution *)

(** Normalizes a goal about runs under an unknown oracle [o], splitting on
    every result code the runs inspect. *)
Ltac exec_step :=
  cbv -[Z.eqb decimal result message];
  try change (0 =? 0) with true;
  cbv -[Z.eqb decimal result message].

Ltac exec o :=
  exec_step;
  repeat (match goal with
          | E : Z.eqb (result o ?c) ?k = _ |- context [Z.eqb (result o ?c) ?k] =>
              rewrite E
          | |- context [Z.eqb (result o ?c) ?k] =>
              let E := fresh "E" in destruct (Z.eqb (result o c) k) eqn:E
          end; exec_step).

(** Membership in a list that is written out. *)
Ltac find_in := repeat (first [ left; reflexivity | right ]).

(** One case of the theorem on the reporting of errors: [V] and [W] record
    whether verification and bitcode writing returned 0. *)
Ltac c3_case V W :=
  first
    [ reflexivity
    | left; reflexivity
    | right; split;
      [ discriminate
      | split; [ intros Hz; rewrite Hz in W; discriminate W | reflexivity ] ]
    | intros Hv Hin;
      first
        [ apply Z.eqb_eq in V; contradiction
        | split;
          [ reflexivity
          | match goal with
            | |- exists b, ?l = b ++ [_] => exists (removelast l); reflexivity
            end ]
        | exfalso; cbn in Hin; intuition discriminate ]
    | intros Hin Hnz;
      first
        [ reflexivity
        | exfalso; apply Z.eqb_eq in W; contradiction
        | exfalso; cbn in Hin; intuition discriminate ]
    | intros Hz; first [ reflexivity | rewrite Hz in W; discriminate W ] ].

(** Splits on what lines 74 to 87 of sum.c depend on: the two emission
    results and the state of the builder. *)
Ltac tail_cases o s :=
  let ms := fresh "ms" in
  let bs := fresh "bs" in
  let cs := fresh "cs" in
  let h := fresh "h" in
  let os := fresh "os" in
  let tr := fresh "tr" in
  destruct s as [ms bs cs h os tr];
  cbv -[Z.eqb app nth_error result message];
  repeat match goal with
         | |- context [Z.eqb (result o ?c) ?k] => destruct (Z.eqb (result o c) k)
         end;
  match goal with
  | |- context [nth_error ?l ?b] => destruct (nth_error l b) as [[| |]|]
  end;
  cbv -[app nth_error].

(** *** How each program ends *)

Lemma outcome_Chapter1 argc argv o :
  outcome (run Chapter1_sum argc argv o) =
  if result o verify_call =? 0 then Ok 0 else Halt Abort.
Proof. exec o; reflexivity. Qed.

Lemma outcome_Chapter2 argc argv o :
  outcome (run Chapter2_sum argc argv o) =
  if result o Chapter2Calls.target_call =? 0 then
    if result o Chapter2Calls.obj_call =? 0 then
      if result o Chapter2Calls.asm_call =? 0 then
        if result o verify_call =? 0 then Ok 0 else Halt Abort
      else Halt (Undefined "errPtrFileAsm")
    else Halt (Undefined "errPtrFileObj")
  else Halt (Undefined "errPtrTriple").
Proof. exec o; reflexivity. Qed.

Lemma outcome_LLVMC argc argv o :
  outcome (run LLVMC_sum argc argv o) =
  if result o verify_call =? 0 then
    if result o LLVMCCalls.target_call =? 1 then Halt (Undefined "errPtrTriple")
    else Halt (Undefined "targetRef")
  else Halt Abort.
Proof. exec o; reflexivity. Qed.

(** *** What each program calls and prints *)

Lemma trace_Chapter1 argc argv o :
  trace (run Chapter1_sum argc argv o) =
  build_events ++ [Call verify_call] ++
  if result o verify_call =? 0 then
    [Call (CDisposeMessage (Str (message o verify_call))); Call write_call] ++
    (if result o write_call =? 0 then [] else [Stderr bitcode_error]) ++
    [Call (CDisposeBuilder 0%nat)]
  else [].
Proof. exec o; reflexivity. Qed.

Lemma trace_Chapter2 argc argv o :
  trace (run Chapter2_sum argc argv o) =
  build_events ++
  [Stdout ("x86_64" ++ newline)%string;
   Call CInitializeAllTargets; Call CInitializeAllTargetMCs;
   Call CInitializeAllTargetInfos; Call CInitializeAllAsmPrinters;
   Call Chapter2Calls.target_call] ++
  if result o Chapter2Calls.target_call =? 0 then
    [Call (CCreateTargetMachine (Handle 0) "x86_64" EmptyString EmptyString
                                LLVMCodeGenLevelNone
                                LLVMRelocDefault LLVMCodeModelDefault);
     Call Chapter2Calls.obj_call] ++
    if result o Chapter2Calls.obj_call =? 0 then
      [Call Chapter2Calls.asm_call] ++
      if result o Chapter2Calls.asm_call =? 0 then
        [Call verify_call] ++
        if result o verify_call =? 0 then
          [Call (CDisposeMessage (Str (message o verify_call)));
           Call (CDisposeBuilder 0%nat)]
        else []
      else []
    else []
  else [].
Proof. exec o; reflexivity. Qed.

Lemma trace_LLVMC argc argv o :
  trace (run LLVMC_sum argc argv o) =
  build_events ++ [Call verify_call] ++
  if result o verify_call =? 0 then
    [Call (CDisposeMessage (Str (message o verify_call))); Call write_call] ++
    (if result o write_call =? 0 then [] else [Stderr bitcode_error]) ++
    [Call (CWriteBitcodeToMemoryBuffer 0%nat);
     Stdout ("x86_64" ++ newline)%string;
     Call LLVMCCalls.target_call] ++
    if result o LLVMCCalls.target_call =? 1 then []
    else [Stdout (decimal (result o LLVMCCalls.target_call) ++ newline)%string]
  else [].
Proof. exec o; reflexivity. Qed.

(** *** What is left behind *)

Lemma outputs_Chapter1 argc argv o :
  st_outputs (snd (run Chapter1_sum argc argv o)) =
  if (result o verify_call =? 0) && (result o write_call =? 0)
  then [{| art_sink := ToFile "sum.bc"; art_kind := Bitcode;
           art_module := Some sum_module |}]
  else [].
Proof. exec o; reflexivity. Qed.

Lemma outputs_Chapter2 argc argv o :
  st_outputs (snd (run Chapter2_sum argc argv o)) =
  if (result o Chapter2Calls.target_call =? 0) && (result o Chapter2Calls.obj_call =? 0)
  then {| art_sink := ToFile "sum_llvm.o"; art_kind := Object;
          art_module := Some sum_module |}
       :: (if result o Chapter2Calls.asm_call =? 0
           then [{| art_sink := ToFile "sum_llvm.asm"; art_kind := Assembly;
                    art_module := Some sum_module |}]
           else [])
  else [].
Proof. exec o; reflexivity. Qed.

Lemma builders_Chapter1 argc argv o :
  st_builders (snd (run Chapter1_sum argc argv o)) =
  if result o verify_call =? 0 then [Disposed] else [AtEnd (BlockRef 0 0 0)].
Proof. exec o; reflexivity. Qed.

Lemma builders_LLVMC argc argv o :
  st_builders (snd (run LLVMC_sum argc argv o)) = [AtEnd (BlockRef 0 0 0)].
Proof. exec o; reflexivity. Qed.

(** Lines 74 to 87 of LLVM-C/sum.c make four calls whatever the library
    answers and whatever state they start in. *)
Lemma trace_main_from_target mod_ builder triple cpu target o s :
  st_trace (snd (LLVMC.main_from_target mod_ builder triple cpu target o s)) =
  st_trace s ++
  [Call (CCreateTargetMachine target triple cpu EmptyString LLVMCodeGenLevelNone
                              LLVMRelocDefault LLVMCodeModelDefault);
   Call (CTargetMachineEmitToFile (st_handles s) mod_ "spec_sum.bc" LLVMObjectFile
                                  Pundef);
   Call (CTargetMachineEmitToMemoryBuffer (st_handles s) mod_ LLVMObjectFile
                                          Pundef (Paddr "mem"));
   Call (CDisposeBuilder builder)].
Proof.
  destruct s as [ms bs cs h os tr].
  cbv -[Z.eqb app nth_error result message].
  repeat match goal with
         | |- context [Z.eqb (result o ?c) ?k] => destruct (Z.eqb (result o c) k)
         end;
    destruct (nth_error bs builder) as [[| |]|];
    cbv -[app]; rewrite <- !app_assoc; reflexivity.
Qed.

(** Within the range of [int] the 32-bit sum is the mathematical sum. *)
Lemma sint32_in_range (x : Z) : - 2 ^ 31 <= x < 2 ^ 31 -> sint32 x = x.
Proof.
  intros H. unfold sint32.
  rewrite Z.mod_small by lia. lia.
Qed.

(** The function the programs build is [int sum(int a, int b)]: where the C
    sum is defined, it returns that sum. *)
Lemma sum_function_adds (a b : Z) :
  - 2 ^ 31 <= a + b < 2 ^ 31 ->
  eval_function 0 0 sum_function [a; b] = Some (a + b).
Proof.
  intros H.
  change (eval_function 0 0 sum_function [a; b]) with (Some (sint32 (a + b))).
  now rewrite sint32_in_range.
Qed.

(** *** Runs on concrete libraries *)

Example sum_2_3 : eval_function 0 0 sum_function [2; 3] = Some 5.
Proof. reflexivity. Qed.

Example sum_wraps : eval_function 0 0 sum_function [2 ^ 31 - 1; 1] = Some (- 2 ^ 31).
Proof. reflexivity. Qed.

Example Chapter1_all_ok :
  outcome (run Chapter1_sum 1 ["sum"] all_ok) = Ok 0 /\
  names (trace (run Chapter1_sum 1 ["sum"] all_ok)) = call_sequence Chapter1_sum /\
  stderr (trace (run Chapter1_sum 1 ["sum"] all_ok)) = [].
Proof. repeat split. Qed.

Example Chapter1_bitcode_fails :
  outcome (run Chapter1_sum 1 ["sum"] (failing is_write_bitcode_to_file 1)) = Ok 0 /\
  stderr (trace (run Chapter1_sum 1 ["sum"] (failing is_write_bitcode_to_file 1)))
    = [bitcode_error].
Proof. repeat split. Qed.

Example Chapter2_all_ok :
  outcome (run Chapter2_sum 1 ["sum"] all_ok) = Ok 0 /\
  names (trace (run Chapter2_sum 1 ["sum"] all_ok)) = call_sequence Chapter2_sum.
Proof. repeat split. Qed.

Example Chapter2_lookup_fails :
  outcome (run Chapter2_sum 1 ["sum"] (failing is_target_lookup 1))
    = Halt (Undefined "errPtrTriple").
Proof. reflexivity. Qed.

Example LLVMC_all_ok :
  outcome (run LLVMC_sum 1 ["sum"] all_ok) = Halt (Undefined "targetRef") /\
  stdout (trace (run LLVMC_sum 1 ["sum"] all_ok))
    = [("x86_64" ++ newline)%string; ("0" ++ newline)%string].
Proof. repeat split. Qed.

(** ** What the programs build *)

(** C1: in every run of each of the three programs the library holds exactly
    one module, named "my_module", with exactly one function, named "sum", of
    the non-variadic type i32 (i32, i32), whose only block "entry" adds
    parameter 0 and parameter 1 into "tmp" and returns it; called on [a] and
    [b] the function yields their 32-bit sum. *)
Theorem C1_programs_build_sum (p : program) (argc : Z) (argv : list string)
    (o : oracle) :
  exists fn bb,
    st_modules (snd (run p argc argv o))
      = [{| mod_name := "my_module"; mod_functions := [fn] |}] /\
    fn_name fn = "sum" /\
    fn_type fn = FunctionType Int32Type [Int32Type; Int32Type] false /\
    fn_blocks fn = [bb] /\
    block_name bb = "entry" /\
    block_instrs bb = [Add "tmp" (VParam 0 0 0) (VParam 0 0 1); Ret (VInstr 0 0 0 0)] /\
    forall a b : Z, eval_function 0 0 fn [a; b] = Some (sint32 (a + b)).
Proof.
  exists sum_function, sum_block.
  split; [ | repeat split ].
  destruct p; exec o; reflexivity.
Qed.

(** ** Order of verification and emission *)

(** C2: Chapter1/sum.c and sum.c verify the module before every emission
    step, in every run.  Chapter2/sum.c does not: as soon as its target
    lookup succeeds it emits before it has verified, and so it does in the
    run in which no library call fails. *)
Theorem C2_Chapter2_emits_before_verifying (argc : Z) (argv : list string)
    (o : oracle) :
  verified_first false (calls (trace (run Chapter1_sum argc argv o))) = true /\
  verified_first false (calls (trace (run LLVMC_sum argc argv o))) = true /\
  verified_first false (calls (trace (run Chapter2_sum argc argv o)))
    = negb (result o Chapter2Calls.target_call =? 0) /\
  verified_first false (calls (trace (run Chapter2_sum 1 ["sum"] all_ok))) = false.
Proof.
  rewrite trace_Chapter1, trace_LLVMC, trace_Chapter2.
  repeat split.
  - destruct (result o verify_call =? 0), (result o write_call =? 0); reflexivity.
  - destruct (result o verify_call =? 0), (result o write_call =? 0),
      (result o LLVMCCalls.target_call =? 1); reflexivity.
  - destruct (result o Chapter2Calls.target_call =? 0),
      (result o Chapter2Calls.obj_call =? 0),
      (result o Chapter2Calls.asm_call =? 0),
      (result o verify_call =? 0); reflexivity.
Qed.

(** ** Reaction to errors *)

(** C3 as stated fails: Chapter1/sum.c with a module the verifier rejects is
    aborted by the library at LLVMVerifyModule; Chapter2/sum.c with a failed
    target lookup prints nothing on standard error and makes no further
    call. *)
Lemma C3_counterexample :
  ~ reports_and_continues Chapter1_sum 1 ["sum"] (failing is_verify 1) /\
  ~ reports_and_continues Chapter2_sum 1 ["sum"] (failing is_target_lookup 1).
Proof.
  split; intros (H & _); vm_compute in H; discriminate H.
Qed.

(** C3, amended: a nonzero result of LLVMWriteBitcodeToFile changes nothing
    but standard error: two libraries that differ only in what they answer to
    that call give runs that end alike, make the same calls and print the
    same standard output.  Standard error carries either nothing or, in
    Chapter1/sum.c and sum.c after a nonzero result of that call, the one
    message of the bitcode check.  A module that the verifier rejects ends
    the process inside the library, LLVMVerifyModule being the last call.
    Whenever LLVMWriteBitcodeToFile has been called and returned nonzero the
    message is on standard error, and it is not there after a zero result. *)
Theorem C3_only_bitcode_error_reported (p : program) (argc : Z)
    (argv : list string) (o1 o2 : oracle)
    (Hagree : forall c, is_write_bitcode_to_file c = false ->
                        result o1 c = result o2 c /\ message o1 c = message o2 c) :
  outcome (run p argc argv o1) = outcome (run p argc argv o2) /\
  calls (trace (run p argc argv o1)) = calls (trace (run p argc argv o2)) /\
  stdout (trace (run p argc argv o1)) = stdout (trace (run p argc argv o2)) /\
  (stderr (trace (run p argc argv o1)) = [] \/
   p <> Chapter2_sum /\ result o1 write_call <> 0 /\
   stderr (trace (run p argc argv o1)) = [bitcode_error]) /\
  (result o1 verify_call <> 0 ->
   In (Call verify_call) (trace (run p argc argv o1)) ->
   outcome (run p argc argv o1) = Halt Abort /\
   exists before, trace (run p argc argv o1) = before ++ [Call verify_call]) /\
  (In (Call write_call) (trace (run p argc argv o1)) ->
   result o1 write_call <> 0 ->
   stderr (trace (run p argc argv o1)) = [bitcode_error]) /\
  (result o1 write_call = 0 -> stderr (trace (run p argc argv o1)) = []).
Proof.
  assert (Hr : forall c, is_write_bitcode_to_file c = false -> result o1 c = result o2 c)
    by (intros c Hc; apply (Hagree c Hc)).
  assert (Hm : message o1 verify_call = message o2 verify_call)
    by (apply (Hagree verify_call); reflexivity).
  destruct p.
  - rewrite !outcome_Chapter1, !trace_Chapter1.
    rewrite <- (Hr verify_call eq_refl), <- Hm.
    destruct (result o1 verify_call =? 0) eqn:V;
      destruct (result o1 write_call =? 0) eqn:W;
      destruct (result o2 write_call =? 0);
      refine (conj _ (conj _ (conj _ (conj _ (conj _ (conj _ _))))));
      c3_case V W.
  - rewrite !outcome_Chapter2, !trace_Chapter2.
    rewrite <- (Hr Chapter2Calls.target_call eq_refl),
            <- (Hr Chapter2Calls.obj_call eq_refl),
            <- (Hr Chapter2Calls.asm_call eq_refl),
            <- (Hr verify_call eq_refl), <- Hm.
    destruct (result o1 verify_call =? 0) eqn:V;
      destruct (result o1 write_call =? 0) eqn:W;
      destruct (result o1 Chapter2Calls.target_call =? 0);
      destruct (result o1 Chapter2Calls.obj_call =? 0);
      destruct (result o1 Chapter2Calls.asm_call =? 0);
      refine (conj _ (conj _ (conj _ (conj _ (conj _ (conj _ _))))));
      c3_case V W.
  - rewrite !outcome_LLVMC, !trace_LLVMC.
    rewrite <- (Hr LLVMCCalls.target_call eq_refl),
            <- (Hr verify_call eq_refl), <- Hm.
    destruct (result o1 verify_call =? 0) eqn:V;
      destruct (result o1 write_call =? 0) eqn:W;
      destruct (result o2 write_call =? 0);
      destruct (result o1 LLVMCCalls.target_call =? 1);
      refine (conj _ (conj _ (conj _ (conj _ (conj _ (conj _ _))))));
      c3_case V W.
Qed.

Lemma C3_only_bitcode_error_reported_witness :
  (forall c, is_write_bitcode_to_file c = false ->
             result (failing is_write_bitcode_to_file 1) c = result all_ok c /\
             message (failing is_write_bitcode_to_file 1) c = message all_ok c) /\
  outcome (run Chapter1_sum 1 ["sum"] (failing is_write_bitcode_to_file 1))
    = outcome (run Chapter1_sum 1 ["sum"] all_ok) /\
  calls (trace (run Chapter1_sum 1 ["sum"] (failing is_write_bitcode_to_file 1)))
    = calls (trace (run Chapter1_sum 1 ["sum"] all_ok)) /\
  In (Call write_call)
     (trace (run Chapter1_sum 1 ["sum"] (failing is_write_bitcode_to_file 1))) /\
  result (failing is_write_bitcode_to_file 1) write_call <> 0 /\
  stderr (trace (run Chapter1_sum 1 ["sum"] (failing is_write_bitcode_to_file 1)))
    = [bitcode_error].
Proof.
  assert (H : forall c, is_write_bitcode_to_file c = false ->
             result (failing is_write_bitcode_to_file 1) c = result all_ok c /\
             message (failing is_write_bitcode_to_file 1) c = message all_ok c)
    by (intros c Hc; cbn; rewrite Hc; split; reflexivity).
  assert (Hin : In (Call write_call)
                   (trace (run Chapter1_sum 1 ["sum"]
                             (failing is_write_bitcode_to_file 1))))
    by (vm_compute; find_in).
  assert (Hnz : result (failing is_write_bitcode_to_file 1) write_call <> 0)
    by discriminate.
  split; [ exact H | ].
  destruct (C3_only_bitcode_error_reported Chapter1_sum 1 ["sum"]
              (failing is_write_bitcode_to_file 1) all_ok H)
    as (H1 & H2 & _ & _ & _ & H6 & _).
  split; [ exact H1 | split; [ exact H2 | split; [ exact Hin | split ] ] ].
  - exact Hnz.
  - exact (H6 Hin Hnz).
Defined.

(** ** Emission *)

(** C4: when no library call fails, Chapter1/sum.c calls
    LLVMWriteBitcodeToFile on the module with "sum.bc" and the bitcode file
    holds the built module; Chapter2/sum.c calls LLVMTargetMachineEmitToFile
    with LLVMObjectFile and with LLVMAssemblyFile, and the object and assembly
    files hold the built module. *)
Theorem C4_three_forms_emitted (argc : Z) (argv : list string) (o : oracle)
    (Hok : forall c, result o c = 0) :
  In (Call (CWriteBitcodeToFile 0%nat "sum.bc"))
     (trace (run Chapter1_sum argc argv o)) /\
  In {| art_sink := ToFile "sum.bc"; art_kind := Bitcode;
        art_module := Some sum_module |}
     (st_outputs (snd (run Chapter1_sum argc argv o))) /\
  In (Call (CTargetMachineEmitToFile 1%nat 0%nat "sum_llvm.o" LLVMObjectFile Pundef))
     (trace (run Chapter2_sum argc argv o)) /\
  In {| art_sink := ToFile "sum_llvm.o"; art_kind := Object;
        art_module := Some sum_module |}
     (st_outputs (snd (run Chapter2_sum argc argv o))) /\
  In (Call (CTargetMachineEmitToFile 1%nat 0%nat "sum_llvm.asm" LLVMAssemblyFile Pundef))
     (trace (run Chapter2_sum argc argv o)) /\
  In {| art_sink := ToFile "sum_llvm.asm"; art_kind := Assembly;
        art_module := Some sum_module |}
     (st_outputs (snd (run Chapter2_sum argc argv o))).
Proof.
  rewrite trace_Chapter1, trace_Chapter2, outputs_Chapter1, outputs_Chapter2.
  rewrite !Hok. cbn.
  repeat split; find_in.
Qed.

Lemma C4_three_forms_emitted_witness :
  (forall c, result all_ok c = 0) /\
  In (Call (CWriteBitcodeToFile 0%nat "sum.bc"))
     (trace (run Chapter1_sum 1 ["sum"] all_ok)).
Proof.
  split; [ reflexivity | ].
  exact (proj1 (C4_three_forms_emitted 1 ["sum"] all_ok (fun c => eq_refl))).
Defined.

(** ** The bitcode check *)

(** C5: in Chapter1/sum.c and in sum.c the message of the bitcode check is on
    standard error exactly when LLVMWriteBitcodeToFile was called and
    returned nonzero.  Chapter1/sum.c then goes on to the end of [main]: it
    returns and has disposed the builder whenever the module passed
    verification.  sum.c does not: no run of it returns or disposes the
    builder, every run that passes verification stopping at the dereference
    of [errPtrTriple] or of [targetRef]. *)
Theorem C5_bitcode_check (argc : Z) (argv : list string) (o : oracle) :
  stderr (trace (run Chapter1_sum argc argv o))
    = (if (result o verify_call =? 0) && negb (result o write_call =? 0)
       then [bitcode_error] else []) /\
  stderr (trace (run LLVMC_sum argc argv o))
    = (if (result o verify_call =? 0) && negb (result o write_call =? 0)
       then [bitcode_error] else []) /\
  outcome (run Chapter1_sum argc argv o)
    = (if result o verify_call =? 0 then Ok 0 else Halt Abort) /\
  st_builders (snd (run Chapter1_sum argc argv o))
    = (if result o verify_call =? 0 then [Disposed] else [AtEnd (BlockRef 0 0 0)]) /\
  outcome (run LLVMC_sum argc argv o)
    = (if result o verify_call =? 0
       then if result o LLVMCCalls.target_call =? 1
            then Halt (Undefined "errPtrTriple")
            else Halt (Undefined "targetRef")
       else Halt Abort) /\
  st_builders (snd (run LLVMC_sum argc argv o)) = [AtEnd (BlockRef 0 0 0)] /\
  ~ In "LLVMDisposeBuilder" (names (trace (run LLVMC_sum argc argv o))).
Proof.
  rewrite outcome_Chapter1, outcome_LLVMC, builders_Chapter1, builders_LLVMC,
    trace_Chapter1, trace_LLVMC.
  destruct (result o verify_call =? 0), (result o write_call =? 0),
    (result o LLVMCCalls.target_call =? 1);
    repeat split; cbn; intuition discriminate.
Qed.

(** ** Exit status *)

(** C6: a run that returns from [main] returns 0, whatever the library
    answered; and two runs that both return have made the same library calls
    and printed the same standard output, whatever the library answered in
    each. *)
Theorem C6_exit_status_zero (p : program) (argc : Z) (argv : list string)
    (o1 o2 : oracle) (s1 s2 : Z)
    (H1 : outcome (run p argc argv o1) = Ok s1)
    (H2 : outcome (run p argc argv o2) = Ok s2) :
  s1 = 0 /\
  names (trace (run p argc argv o1)) = names (trace (run p argc argv o2)) /\
  stdout (trace (run p argc argv o1)) = stdout (trace (run p argc argv o2)).
Proof.
  destruct p.
  - rewrite outcome_Chapter1 in H1, H2. rewrite !trace_Chapter1.
    destruct (result o1 verify_call =? 0); [ | discriminate ].
    destruct (result o2 verify_call =? 0); [ | discriminate ].
    split; [ congruence | ].
    destruct (result o1 write_call =? 0), (result o2 write_call =? 0);
      split; reflexivity.
  - rewrite outcome_Chapter2 in H1, H2. rewrite !trace_Chapter2.
    destruct (result o1 Chapter2Calls.target_call =? 0); [ | discriminate ].
    destruct (result o1 Chapter2Calls.obj_call =? 0); [ | discriminate ].
    destruct (result o1 Chapter2Calls.asm_call =? 0); [ | discriminate ].
    destruct (result o1 verify_call =? 0); [ | discriminate ].
    destruct (result o2 Chapter2Calls.target_call =? 0); [ | discriminate ].
    destruct (result o2 Chapter2Calls.obj_call =? 0); [ | discriminate ].
    destruct (result o2 Chapter2Calls.asm_call =? 0); [ | discriminate ].
    destruct (result o2 verify_call =? 0); [ | discriminate ].
    split; [ congruence | split; reflexivity ].
  - rewrite outcome_LLVMC in H1.
    destruct (result o1 verify_call =? 0); [ | discriminate ].
    destruct (result o1 LLVMCCalls.target_call =? 1); discriminate.
Qed.

Lemma C6_exit_status_zero_witness :
  outcome (run Chapter1_sum 1 ["sum"] (failing is_write_bitcode_to_file 1)) = Ok 0 /\
  outcome (run Chapter1_sum 1 ["sum"] all_ok) = Ok 0 /\
  names (trace (run Chapter1_sum 1 ["sum"] (failing is_write_bitcode_to_file 1)))
    = names (trace (run Chapter1_sum 1 ["sum"] all_ok)).
Proof.
  split; [ reflexivity | split; [ reflexivity | ] ].
  exact (proj1 (proj2 (C6_exit_status_zero Chapter1_sum 1 ["sum"]
                         (failing is_write_bitcode_to_file 1) all_ok 0 0
                         eq_refl eq_refl))).
Defined.

(** ** Straight-line control *)

(** C7: every run of each program ends, by returning, by the library's abort
    or at an undefined dereference; the calls it has made are an initial part
    of the calls of the program text, each made once and in text order, so
    that the number of calls and prints is bounded by the length of the text;
    the last four calls of sum.c are those its lines 74 to 87 make from any
    state. *)
Theorem C7_straight_line (p : program) (argc : Z) (argv : list string)
    (o : oracle) :
  ((exists status, outcome (run p argc argv o) = Ok status) \/
   outcome (run p argc argv o) = Halt Abort \/
   exists x, outcome (run p argc argv o) = Halt (Undefined x)) /\
  (exists rest, names (trace (run p argc argv o)) ++ rest = call_sequence p) /\
  (List.length (trace (run p argc argv o))
     <= List.length (call_sequence p) + print_statements p)%nat /\
  (forall mod_ builder triple cpu target s,
     names (st_trace (snd (LLVMC.main_from_target mod_ builder triple cpu target o s)))
     = names (st_trace s) ++
       ["LLVMCreateTargetMachine"; "LLVMTargetMachineEmitToFile";
        "LLVMTargetMachineEmitToMemoryBuffer"; "LLVMDisposeBuilder"]).
Proof.
  split; [ | split; [ | split ] ].
  - destruct (outcome (run p argc argv o)) as [status | [ | x]]; eauto.
  - exists (skipn (List.length (names (trace (run p argc argv o)))) (call_sequence p)).
    destruct p;
      [ rewrite trace_Chapter1 | rewrite trace_Chapter2 | rewrite trace_LLVMC ];
      repeat match goal with
             | |- context [result o ?c =? ?k] => destruct (result o c =? k)
             end; reflexivity.
  - destruct p;
      [ rewrite trace_Chapter1 | rewrite trace_Chapter2 | rewrite trace_LLVMC ];
      repeat match goal with
             | |- context [result o ?c =? ?k] => destruct (result o c =? k)
             end; cbn; lia.
  - intros. rewrite trace_main_from_target.
    unfold names, calls. rewrite flat_map_app, map_app. reflexivity.
Qed.

(** ** The target-lookup check *)

(** C8: in neither program is the error of the lookup printed.
    Chapter2/sum.c comes to the read through [errPtrTriple], which holds no
    address, on every nonzero result, and its standard output carries the
    triple only.  No run of sum.c that passes verification gets past the
    lookup and its check without undefined behaviour, [targetRef] and
    [errPtrTriple] holding no address; when the lookup answers 1 its
    standard output carries the triple only. *)
Theorem C8_target_lookup_check (argc : Z) (argv : list string) (o : oracle) :
  (outcome (run Chapter2_sum argc argv o) = Halt (Undefined "errPtrTriple") <->
   result o Chapter2Calls.target_call <> 0) /\
  stdout (trace (run Chapter2_sum argc argv o)) = [("x86_64" ++ newline)%string] /\
  (result o verify_call = 0 ->
   exists x, outcome (run LLVMC_sum argc argv o) = Halt (Undefined x)) /\
  (result o verify_call = 0 -> result o LLVMCCalls.target_call = 1 ->
   stdout (trace (run LLVMC_sum argc argv o)) = [("x86_64" ++ newline)%string]) /\
  (exists x, outcome (run LLVMC_sum 1 ["sum"] (failing is_target_lookup 1))
             = Halt (Undefined x)) /\
  stdout (trace (run LLVMC_sum 1 ["sum"] (failing is_target_lookup 1)))
    = [("x86_64" ++ newline)%string].
Proof.
  rewrite outcome_LLVMC, outcome_Chapter2, trace_LLVMC, trace_Chapter2.
  split; [ | split; [ | split; [ | split; [ | split ] ] ] ].
  - destruct (result o Chapter2Calls.target_call =? 0) eqn:T;
      destruct (result o Chapter2Calls.obj_call =? 0);
      destruct (result o Chapter2Calls.asm_call =? 0);
      destruct (result o verify_call =? 0);
      rewrite ?Z.eqb_eq, ?Z.eqb_neq in *; split; intros ?;
      first [ congruence | tauto ].
  - destruct (result o Chapter2Calls.target_call =? 0),
      (result o Chapter2Calls.obj_call =? 0),
      (result o Chapter2Calls.asm_call =? 0),
      (result o verify_call =? 0); reflexivity.
  - intros Hv. apply Z.eqb_eq in Hv. rewrite Hv.
    destruct (result o LLVMCCalls.target_call =? 1); eauto.
  - intros Hv Hl. apply Z.eqb_eq in Hv. rewrite Hv, Hl.
    destruct (result o write_call =? 0); reflexivity.
  - eexists; reflexivity.
  - reflexivity.
Qed.

(** ** Pointers that are never set *)

(** C9: sum.c hands [targetRef] and [errPtrTriple] to
    LLVMGetTargetFromTriple, and its lines 74 to 87 hand [errPtrFile] and
    [errPtrMem] to the two emission calls, as pointers that hold no address;
    every run of sum.c that passes verification stops at the dereference of
    [errPtrTriple] (result 1) or of [targetRef] (any other result).
    Chapter2/sum.c hands [errPtrTriple], [errPtrFileObj] and [errPtrFileAsm]
    over in the same way, and a nonzero result of the lookup or of either
    emission stops the run at the dereference of the respective pointer. *)
Theorem C9_pointers_never_set (argc : Z) (argv : list string) (o : oracle) :
  (forall x s, load x Pundef o s = (Halt (Undefined x), s)) /\
  (outcome (run LLVMC_sum argc argv o) = Halt Abort \/
   In (Call (CGetTargetFromTriple "x86_64" Pundef Pundef))
      (trace (run LLVMC_sum argc argv o))) /\
  outcome (run LLVMC_sum argc argv o)
    = (if result o verify_call =? 0
       then if result o LLVMCCalls.target_call =? 1
            then Halt (Undefined "errPtrTriple")
            else Halt (Undefined "targetRef")
       else Halt Abort) /\
  (forall mod_ builder triple cpu target s,
     In (Call (CTargetMachineEmitToFile (st_handles s) mod_ "spec_sum.bc"
                                        LLVMObjectFile Pundef))
        (st_trace (snd (LLVMC.main_from_target mod_ builder triple cpu target o s))) /\
     In (Call (CTargetMachineEmitToMemoryBuffer (st_handles s) mod_ LLVMObjectFile
                                                Pundef (Paddr "mem")))
        (st_trace (snd (LLVMC.main_from_target mod_ builder triple cpu target o s)))) /\
  In (Call (CGetTargetFromTriple "x86_64" (Paddr "targetRef") Pundef))
     (trace (run Chapter2_sum argc argv o)) /\
  outcome (run Chapter2_sum argc argv o)
    = (if result o (CGetTargetFromTriple "x86_64" (Paddr "targetRef") Pundef) =? 0
       then if result o (CTargetMachineEmitToFile 1%nat 0%nat "sum_llvm.o"
                                                  LLVMObjectFile Pundef) =? 0
            then if result o (CTargetMachineEmitToFile 1%nat 0%nat "sum_llvm.asm"
                                                       LLVMAssemblyFile Pundef) =? 0
                 then if result o verify_call =? 0 then Ok 0 else Halt Abort
                 else Halt (Undefined "errPtrFileAsm")
            else Halt (Undefined "errPtrFileObj")
       else Halt (Undefined "errPtrTriple")).
Proof.
  split; [ reflexivity | ].
  split; [ | split; [ apply outcome_LLVMC | split; [ | split ] ] ].
  - rewrite outcome_LLVMC, trace_LLVMC.
    destruct (result o verify_call =? 0); [ right | left; reflexivity ].
    destruct (result o write_call =? 0); cbn; find_in.
  - intros. rewrite trace_main_from_target.
    split; apply in_or_app; right; find_in.
  - rewrite trace_Chapter2. apply in_or_app; right. cbn. find_in.
  - apply outcome_Chapter2.
Qed.

(** ** Command-line arguments *)

(** C10: a run does not depend on [argc] and [argv]: with the same library,
    two runs of a program on different arguments are the same run, calls,
    prints, outcome and final state; and every call of every run names only
    the fixed files and the triple "x86_64", as does "spec_sum.bc" in lines
    74 to 87 of sum.c. *)
Theorem C10_arguments_ignored (p : program) (argc1 argc2 : Z)
    (argv1 argv2 : list string) (o : oracle) :
  run p argc1 argv1 o = run p argc2 argv2 o /\
  Forall fixed_names (calls (trace (run p argc1 argv1 o))) /\
  (forall mod_ builder target s,
     Forall fixed_names
       (skipn (List.length (calls (st_trace s)))
          (calls (st_trace (snd (LLVMC.main_from_target mod_ builder "x86_64" EmptyString
                                   target o s)))))).
Proof.
  split; [ destruct p; cbv [run main_of Chapter1.main Chapter2.main LLVMC.main];
           reflexivity | split ].
  - destruct p;
      [ rewrite trace_Chapter1 | rewrite trace_Chapter2 | rewrite trace_LLVMC ];
      repeat match goal with
             | |- context [result o ?c =? ?k] => destruct (result o c =? k)
             end;
      cbn;
      repeat (constructor; [ split; cbn; first [ exact I | reflexivity | find_in ] | ]);
      constructor.
  - intros. rewrite trace_main_from_target.
    unfold calls at 2. rewrite flat_map_app.
    fold (calls (st_trace s)).
    rewrite skipn_app, skipn_all, Nat.sub_diag. cbn.
    repeat (constructor; [ split; cbn; first [ exact I | reflexivity | find_in ] | ]);
      constructor.
Qed.

(** * Further properties of the three programs *)

(** ** Helper lemmas *)

Lemma builders_Chapter2 argc argv o :
  st_builders (snd (run Chapter2_sum argc argv o)) =
  if (result o Chapter2Calls.target_call =? 0)
     && (result o Chapter2Calls.obj_call =? 0)
     && (result o Chapter2Calls.asm_call =? 0)
     && (result o verify_call =? 0)
  then [Disposed] else [AtEnd (BlockRef 0 0 0)].
Proof. exec o; reflexivity. Qed.

Lemma outputs_LLVMC argc argv o :
  st_outputs (snd (run LLVMC_sum argc argv o)) =
  if result o verify_call =? 0
  then (if result o write_call =? 0
        then [{| art_sink := ToFile "sum.bc"; art_kind := Bitcode;
                 art_module := Some sum_module |}]
        else []) ++
       [{| art_sink := ToBuffer 0; art_kind := Bitcode;
           art_module := Some sum_module |}]
  else [].
Proof. exec o; reflexivity. Qed.

Lemma outcome_main_from_target mod_ builder triple cpu target o s :
  fst (LLVMC.main_from_target mod_ builder triple cpu target o s) =
  match nth_error (st_builders s) builder with
  | Some Unpositioned | Some (AtEnd _) => Ok 0
  | _ => Halt (Undefined "LLVMDisposeBuilder")
  end.
Proof. tail_cases o s; reflexivity. Qed.

Lemma outputs_main_from_target mod_ builder triple cpu target o s :
  st_outputs (snd (LLVMC.main_from_target mod_ builder triple cpu target o s)) =
  st_outputs s ++
  (if result o (CTargetMachineEmitToFile (st_handles s) mod_ "spec_sum.bc"
                                         LLVMObjectFile Pundef) =? 0
   then [{| art_sink := ToFile "spec_sum.bc"; art_kind := Object;
            art_module := nth_error (st_modules s) mod_ |}]
   else []) ++
  (if result o (CTargetMachineEmitToMemoryBuffer (st_handles s) mod_ LLVMObjectFile
                                                 Pundef (Paddr "mem")) =? 0
   then [{| art_sink := ToBuffer (S (st_handles s)); art_kind := Object;
            art_module := nth_error (st_modules s) mod_ |}]
   else []).
Proof.
  tail_cases o s; rewrite <- ?app_assoc, ?app_nil_r; reflexivity.
Qed.

Lemma cells_main_from_target mod_ builder triple cpu target o s :
  st_cells (snd (LLVMC.main_from_target mod_ builder triple cpu target o s)) =
  (if result o (CTargetMachineEmitToMemoryBuffer (st_handles s) mod_ LLVMObjectFile
                                                 Pundef (Paddr "mem")) =? 0
   then [("mem", Handle (S (st_handles s)))]
   else []) ++ st_cells s.
Proof. tail_cases o s; reflexivity. Qed.

(** ** The builder *)

(** X1: in each of the three programs the builder is disposed exactly by the
    runs that return from [main]; a run ended by the library's abort or at
    an undefined dereference leaves it positioned at the end of "entry". *)
Theorem X1_builder_disposed_iff_returned (p : program) (argc : Z)
    (argv : list string) (o : oracle) :
  st_builders (snd (run p argc argv o)) =
  match outcome (run p argc argv o) with
  | Ok _ => [Disposed]
  | Halt _ => [AtEnd (BlockRef 0 0 0)]
  end.
Proof.
  destruct p.
  - rewrite builders_Chapter1, outcome_Chapter1.
    destruct (result o verify_call =? 0); reflexivity.
  - rewrite builders_Chapter2, outcome_Chapter2.
    destruct (result o Chapter2Calls.target_call =? 0),
      (result o Chapter2Calls.obj_call =? 0),
      (result o Chapter2Calls.asm_call =? 0),
      (result o verify_call =? 0); reflexivity.
  - rewrite builders_LLVMC, outcome_LLVMC.
    destruct (result o verify_call =? 0),
      (result o LLVMCCalls.target_call =? 1); reflexivity.
Qed.

(** ** What is written *)

(** X2: whatever a run writes, to a file or to a memory buffer, is the
    complete module: every artifact of every run of every program holds the
    module with the finished function "sum". *)
Theorem X2_artifacts_hold_built_module (p : program) (argc : Z)
    (argv : list string) (o : oracle) :
  Forall (fun a => art_module a = Some sum_module)
         (st_outputs (snd (run p argc argv o))).
Proof.
  destruct p;
    [ rewrite outputs_Chapter1 | rewrite outputs_Chapter2 | rewrite outputs_LLVMC ];
    repeat match goal with
           | |- context [result o ?c =? ?k] => destruct (result o c =? k)
           end; cbn; repeat constructor.
Qed.

(** X3: when the verifier rejects the module, Chapter1/sum.c and sum.c have
    written nothing; Chapter2/sum.c, whenever it is aborted, has already
    written both the object file and the assembly file. *)
Theorem X3_rejected_module_already_emitted (argc : Z) (argv : list string)
    (o : oracle) (Hv : result o verify_call <> 0) :
  st_outputs (snd (run Chapter1_sum argc argv o)) = [] /\
  st_outputs (snd (run LLVMC_sum argc argv o)) = [] /\
  (outcome (run Chapter2_sum argc argv o) = Halt Abort ->
   map art_sink (st_outputs (snd (run Chapter2_sum argc argv o)))
   = [ToFile "sum_llvm.o"; ToFile "sum_llvm.asm"]).
Proof.
  apply Z.eqb_neq in Hv.
  rewrite outputs_Chapter1, outputs_LLVMC, outputs_Chapter2, outcome_Chapter2, Hv.
  repeat split.
  destruct (result o Chapter2Calls.target_call =? 0),
    (result o Chapter2Calls.obj_call =? 0),
    (result o Chapter2Calls.asm_call =? 0); cbn; intros H;
    first [ reflexivity | discriminate H ].
Qed.

Lemma X3_rejected_module_already_emitted_witness :
  result (failing is_verify 1) verify_call <> 0 /\
  st_outputs (snd (run Chapter1_sum 1 ["sum"] (failing is_verify 1))) = [] /\
  map art_sink (st_outputs (snd (run Chapter2_sum 1 ["sum"] (failing is_verify 1))))
  = [ToFile "sum_llvm.o"; ToFile "sum_llvm.asm"].
Proof.
  assert (Hv : result (failing is_verify 1) verify_call <> 0) by discriminate.
  split; [ exact Hv | ].
  destruct (X3_rejected_module_already_emitted 1 ["sum"] (failing is_verify 1) Hv)
    as (H1 & _ & H3).
  split; [ exact H1 | apply H3; reflexivity ].
Defined.

(** X4: in Chapter1/sum.c and sum.c, once LLVMWriteBitcodeToFile has been
    called, exactly one of two things holds at the end of the run: the file
    "sum.bc" was written and standard error is empty, or no such file was
    written and standard error carries the message of the bitcode check. *)
Theorem X4_file_or_message (p : program) (argc : Z) (argv : list string)
    (o : oracle) (Hp : p <> Chapter2_sum)
    (Hcalled : In (Call write_call) (trace (run p argc argv o))) :
  written "sum.bc" (st_outputs (snd (run p argc argv o))) = true /\
  stderr (trace (run p argc argv o)) = []
  \/
  written "sum.bc" (st_outputs (snd (run p argc argv o))) = false /\
  stderr (trace (run p argc argv o)) = [bitcode_error].
Proof.
  destruct p; [ | contradiction | ].
  - revert Hcalled. rewrite outputs_Chapter1, trace_Chapter1.
    destruct (result o verify_call =? 0), (result o write_call =? 0);
      cbn; intros Hc; first [ left; split; reflexivity
                            | right; split; reflexivity
                            | exfalso; intuition discriminate ].
  - revert Hcalled. rewrite outputs_LLVMC, trace_LLVMC.
    destruct (result o verify_call =? 0), (result o write_call =? 0),
      (result o LLVMCCalls.target_call =? 1);
      cbn; intros Hc; first [ left; split; reflexivity
                            | right; split; reflexivity
                            | exfalso; intuition discriminate ].
Qed.

Lemma X4_file_or_message_witness :
  Chapter1_sum <> Chapter2_sum /\
  In (Call write_call)
     (trace (run Chapter1_sum 1 ["sum"] (failing is_write_bitcode_to_file 1))) /\
  (written "sum.bc"
     (st_outputs (snd (run Chapter1_sum 1 ["sum"] (failing is_write_bitcode_to_file 1))))
   = true /\
   stderr (trace (run Chapter1_sum 1 ["sum"] (failing is_write_bitcode_to_file 1))) = []
   \/
   written "sum.bc"
     (st_outputs (snd (run Chapter1_sum 1 ["sum"] (failing is_write_bitcode_to_file 1))))
   = false /\
   stderr (trace (run Chapter1_sum 1 ["sum"] (failing is_write_bitcode_to_file 1)))
   = [bitcode_error]).
Proof.
  assert (Hp : Chapter1_sum <> Chapter2_sum) by discriminate.
  assert (Hc : In (Call write_call)
                  (trace (run Chapter1_sum 1 ["sum"]
                            (failing is_write_bitcode_to_file 1))))
    by (vm_compute; find_in).
  split; [ exact Hp | split; [ exact Hc | ] ].
  exact (X4_file_or_message Chapter1_sum 1 ["sum"]
           (failing is_write_bitcode_to_file 1) Hp Hc).
Defined.

(** X5: sum.c writes the bitcode to a memory buffer in exactly the runs that
    pass verification, whether the write to the file failed or not; the
    other two programs never write to a buffer. *)
Theorem X5_buffer_written (argc : Z) (argv : list string) (o : oracle) :
  filter to_buffer (st_outputs (snd (run LLVMC_sum argc argv o)))
    = (if result o verify_call =? 0
       then [{| art_sink := ToBuffer 0; art_kind := Bitcode;
                art_module := Some sum_module |}]
       else []) /\
  filter to_buffer (st_outputs (snd (run Chapter1_sum argc argv o))) = [] /\
  filter to_buffer (st_outputs (snd (run Chapter2_sum argc argv o))) = [].
Proof.
  rewrite outputs_LLVMC, outputs_Chapter1, outputs_Chapter2.
  destruct (result o verify_call =? 0), (result o write_call =? 0),
    (result o Chapter2Calls.target_call =? 0),
    (result o Chapter2Calls.obj_call =? 0),
    (result o Chapter2Calls.asm_call =? 0); repeat split.
Qed.

(** ** Targets *)

(** X6: Chapter2/sum.c makes the four target initialisations before it
    looks the target up, in every run: all four are among the calls made
    before the first lookup, the lookup is made, and no initialisation
    follows it.  sum.c initialises no target at all,
    neither before its lookup nor in its lines 74 to 87, so that every
    lookup it makes comes before any initialisation. *)
Theorem X6_initialisation_before_lookup (argc : Z) (argv : list string)
    (o : oracle) :
  first_then is_target_init is_target_lookup false
             (calls (trace (run Chapter2_sum argc argv o))) = true /\
  filter is_target_init (calls (trace (run Chapter2_sum argc argv o)))
    = [CInitializeAllTargets; CInitializeAllTargetMCs;
       CInitializeAllTargetInfos; CInitializeAllAsmPrinters] /\
  (filter is_target_init
     (before_first is_target_lookup (calls (trace (run Chapter2_sum argc argv o))))
   = [CInitializeAllTargets; CInitializeAllTargetMCs;
      CInitializeAllTargetInfos; CInitializeAllAsmPrinters] /\
   existsb is_target_lookup (calls (trace (run Chapter2_sum argc argv o))) = true) /\
  filter is_target_init (calls (trace (run LLVMC_sum argc argv o))) = [] /\
  first_then is_target_init is_target_lookup false
             (calls (trace (run LLVMC_sum argc argv o)))
    = negb (result o verify_call =? 0) /\
  (forall mod_ builder triple cpu target s,
     filter is_target_init
       (calls (st_trace (snd (LLVMC.main_from_target mod_ builder triple cpu target o s))))
     = filter is_target_init (calls (st_trace s))).
Proof.
  rewrite trace_Chapter2, trace_LLVMC.
  split; [ | split; [ | split; [ | split; [ | split ] ] ] ].
  - destruct (result o Chapter2Calls.target_call =? 0),
      (result o Chapter2Calls.obj_call =? 0),
      (result o Chapter2Calls.asm_call =? 0),
      (result o verify_call =? 0); reflexivity.
  - destruct (result o Chapter2Calls.target_call =? 0),
      (result o Chapter2Calls.obj_call =? 0),
      (result o Chapter2Calls.asm_call =? 0),
      (result o verify_call =? 0); reflexivity.
  - split; reflexivity.
  - destruct (result o verify_call =? 0), (result o write_call =? 0),
      (result o LLVMCCalls.target_call =? 1); reflexivity.
  - destruct (result o verify_call =? 0), (result o write_call =? 0),
      (result o LLVMCCalls.target_call =? 1); reflexivity.
  - intros. rewrite trace_main_from_target.
    unfold calls. rewrite flat_map_app, filter_app. cbn. apply app_nil_r.
Qed.

(** X7: in lines 74 to 87 of sum.c the file "spec_sum.bc" is emitted with
    file type LLVMObjectFile: when that emission succeeds the file holds
    object code of the module, and these lines add no bitcode artifact. *)
Theorem X7_spec_sum_bc_is_object_code (mod_ : LLVMModuleRef)
    (builder : LLVMBuilderRef) (triple cpu : string) (target : cval) (o : oracle)
    (s : state)
    (Hok : result o (CTargetMachineEmitToFile (st_handles s) mod_ "spec_sum.bc"
                                              LLVMObjectFile Pundef) = 0) :
  In {| art_sink := ToFile "spec_sum.bc"; art_kind := Object;
        art_module := nth_error (st_modules s) mod_ |}
     (st_outputs (snd (LLVMC.main_from_target mod_ builder triple cpu target o s))) /\
  filter (fun a => match art_kind a with Bitcode => true | _ => false end)
         (st_outputs (snd (LLVMC.main_from_target mod_ builder triple cpu target o s)))
  = filter (fun a => match art_kind a with Bitcode => true | _ => false end)
           (st_outputs s).
Proof.
  rewrite outputs_main_from_target, Hok. cbn [Z.eqb].
  split.
  - apply in_or_app; right. left; reflexivity.
  - rewrite !filter_app.
    destruct (result o _ =? 0); cbn; rewrite ?app_nil_r; reflexivity.
Qed.

Lemma X7_spec_sum_bc_is_object_code_witness :
  result all_ok
    (CTargetMachineEmitToFile
       (st_handles (mkState [sum_module] [AtEnd (BlockRef 0 0 0)]
                            [("mem", Handle 0)] 1 [] []))
       0%nat "spec_sum.bc" LLVMObjectFile Pundef) = 0 /\
  In {| art_sink := ToFile "spec_sum.bc"; art_kind := Object;
        art_module := Some sum_module |}
     (st_outputs (snd (LLVMC.main_from_target 0%nat 0%nat "x86_64" EmptyString
                         (Handle 1) all_ok
                         (mkState [sum_module] [AtEnd (BlockRef 0 0 0)]
                                  [("mem", Handle 0)] 1 [] [])))) /\
  fst (LLVMC.main_from_target 0%nat 0%nat "x86_64" EmptyString (Handle 1) all_ok
         (mkState [sum_module] [AtEnd (BlockRef 0 0 0)] [("mem", Handle 0)] 1 [] []))
  = Ok 0.
Proof.
  split; [ reflexivity | split; [ | reflexivity ] ].
  exact (proj1 (X7_spec_sum_bc_is_object_code 0%nat 0%nat "x86_64" EmptyString
                  (Handle 1) all_ok
                  (mkState [sum_module] [AtEnd (BlockRef 0 0 0)]
                           [("mem", Handle 0)] 1 [] [])
                  eq_refl)).
Defined.


(** X9: when the emission to memory of line 84 succeeds, the variable [mem]
    is overwritten with the new buffer: the buffer it held before, obtained
    from LLVMWriteBitcodeToMemoryBuffer, is no longer referenced. *)
Theorem X9_mem_overwritten (mod_ : LLVMModuleRef) (builder : LLVMBuilderRef)
    (triple cpu : string) (target : cval) (o : oracle) (s : state) (h : nat)
    (Hmem : lookup_cell "mem" (st_cells s) = Handle h)
    (Hold : (h < st_handles s)%nat)
    (Hok : result o (CTargetMachineEmitToMemoryBuffer (st_handles s) mod_
                       LLVMObjectFile Pundef (Paddr "mem")) = 0) :
  exists h',
    lookup_cell "mem"
      (st_cells (snd (LLVMC.main_from_target mod_ builder triple cpu target o s)))
    = Handle h' /\ h' <> h.
Proof.
  rewrite cells_main_from_target, Hok. cbn.
  exists (S (st_handles s)). split; [ reflexivity | lia ].
Qed.

Lemma X9_mem_overwritten_witness :
  exists h',
    lookup_cell "mem"
      (st_cells (snd (LLVMC.main_from_target 0%nat 0%nat "x86_64" EmptyString (Handle 1)
                        all_ok
                        (mkState [sum_module] [AtEnd (BlockRef 0 0 0)]
                                 [("mem", Handle 0)] 1 [] []))))
    = Handle h' /\ h' <> 0%nat.
Proof.
  apply (X9_mem_overwritten 0%nat 0%nat "x86_64" EmptyString (Handle 1) all_ok
           (mkState [sum_module] [AtEnd (BlockRef 0 0 0)] [("mem", Handle 0)] 1 [] [])
           0%nat); [ reflexivity | cbn; lia | reflexivity ].
Defined.

(** ** What Chapter1 leaves alone *)

(** X10: Chapter1/sum.c, which includes the target headers, uses nothing of
    them: no run of it calls a function of llvm-c/Target.h or
    llvm-c/TargetMachine.h, and no run of it prints on standard output. *)
Theorem X10_Chapter1_uses_no_target (argc : Z) (argv : list string) (o : oracle) :
  filter is_target_api (calls (trace (run Chapter1_sum argc argv o))) = [] /\
  stdout (trace (run Chapter1_sum argc argv o)) = [].
Proof.
  rewrite trace_Chapter1.
  destruct (result o verify_call =? 0), (result o write_call =? 0); split; reflexivity.
Qed.

(** ** The verifier's message *)

(** X11: in every run of every program, LLVMDisposeMessage is only ever
    called on the message that LLVMVerifyModule stored in [error], never on
    the NULL that [error] was initialised with; and it is called exactly once
    in the runs that get past verification, not at all in the others. *)
Theorem X11_message_disposed (p : program) (argc : Z) (argv : list string)
    (o : oracle) :
  Forall (disposes_only (Str (message o verify_call)))
         (calls (trace (run p argc argv o))) /\
  List.length (filter (fun c => match c with CDisposeMessage _ => true | _ => false end)
                      (calls (trace (run p argc argv o))))
  = (if existsb is_verify (calls (trace (run p argc argv o)))
        && (result o verify_call =? 0)
     then 1%nat else 0%nat).
Proof.
  destruct p;
    [ rewrite trace_Chapter1 | rewrite trace_Chapter2 | rewrite trace_LLVMC ];
    repeat match goal with
           | |- context [result o ?c =? ?k] => destruct (result o c =? k)
           end;
    (split; [ cbn; repeat constructor | reflexivity ]).
Qed.

(** ** The target of Chapter2 *)

Lemma targetRef_Chapter2 argc argv o :
  lookup_cell "targetRef" (st_cells (snd (run Chapter2_sum argc argv o))) =
  if result o Chapter2Calls.target_call =? 0 then Handle 0 else Null.
Proof. exec o; reflexivity. Qed.

(** X12: in Chapter2/sum.c the target machine is only ever created from the
    target that the lookup stored in [targetRef] through [&targetRef], a
    library object, never from a null or unset target; and it is created in
    exactly the runs whose lookup returned 0. *)
Theorem X12_machine_created_from_found_target (argc : Z) (argv : list string)
    (o : oracle) :
  Forall (creates_from
            (lookup_cell "targetRef" (st_cells (snd (run Chapter2_sum argc argv o)))))
         (calls (trace (run Chapter2_sum argc argv o))) /\
  existsb (fun c => match c with
                    | CCreateTargetMachine _ _ _ _ _ _ _ => true
                    | _ => false
                    end)
          (calls (trace (run Chapter2_sum argc argv o)))
  = (result o Chapter2Calls.target_call =? 0).
Proof.
  rewrite targetRef_Chapter2, trace_Chapter2.
  destruct (result o Chapter2Calls.target_call =? 0),
    (result o Chapter2Calls.obj_call =? 0),
    (result o Chapter2Calls.asm_call =? 0),
    (result o verify_call =? 0);
    (split; [ cbn; repeat constructor; eauto | reflexivity ]).
Qed.

(** ** Returning and having written *)

(** X13: when [main] of Chapter2/sum.c returns, both files have been
    written, the object file first, each holding the built module.
    Chapter1/sum.c gives no such guarantee: its [main] returns 0 also when
    "sum.bc" could not be written. *)
Theorem X13_Chapter2_returns_with_both_files (argc : Z) (argv : list string)
    (o : oracle) (status : Z)
    (Hret : outcome (run Chapter2_sum argc argv o) = Ok status) :
  st_outputs (snd (run Chapter2_sum argc argv o))
  = [{| art_sink := ToFile "sum_llvm.o"; art_kind := Object;
        art_module := Some sum_module |};
     {| art_sink := ToFile "sum_llvm.asm"; art_kind := Assembly;
        art_module := Some sum_module |}] /\
  (result o verify_call = 0 -> result o write_call <> 0 ->
   outcome (run Chapter1_sum argc argv o) = Ok 0 /\
   st_outputs (snd (run Chapter1_sum argc argv o)) = []).
Proof.
  revert Hret.
  rewrite outcome_Chapter2, outputs_Chapter2, outcome_Chapter1, outputs_Chapter1.
  split.
  - destruct (result o Chapter2Calls.target_call =? 0),
      (result o Chapter2Calls.obj_call =? 0),
      (result o Chapter2Calls.asm_call =? 0);
      first [ reflexivity | discriminate Hret ].
  - intros Hv Hw. apply Z.eqb_eq in Hv. apply Z.eqb_neq in Hw.
    rewrite Hv, Hw. split; reflexivity.
Qed.

Lemma X13_Chapter2_returns_with_both_files_witness :
  outcome (run Chapter2_sum 1 ["sum"] (failing is_write_bitcode_to_file 1)) = Ok 0 /\
  map art_sink
      (st_outputs (snd (run Chapter2_sum 1 ["sum"] (failing is_write_bitcode_to_file 1))))
  = [ToFile "sum_llvm.o"; ToFile "sum_llvm.asm"] /\
  st_outputs (snd (run Chapter1_sum 1 ["sum"] (failing is_write_bitcode_to_file 1))) = [].
Proof.
  destruct (X13_Chapter2_returns_with_both_files 1 ["sum"]
              (failing is_write_bitcode_to_file 1) 0 eq_refl) as (H1 & H2).
  split; [ reflexivity | split ].
  - rewrite H1. reflexivity.
  - apply H2; [ reflexivity | discriminate ].
Defined.
